(** * EcoFinds marketplace: cart, checkout and order routes

    A shallow embedding of the Express route handlers of
    [backend/routes/cart.js], [backend/routes/orders.js] and of the product
    update route of [backend/routes/products.js], over the SQLite schema of
    [database/init.js]; then of the cart page and count, the purchase and
    sales histories, the product deletion, the [authenticateToken]
    middleware of [backend/routes/auth.js] and the quantity buttons of
    the cart page ([CartPage] in [frontend/js/main.js]).

    - A table is the list of its rows, in rowid order.
    - Every handler is a function in a small state monad over a [world]:
      the tables, the journal of SQL statements issued so far, and an
      oracle telling which statement the driver reports as failed (the
      [err] argument of the sqlite3 callbacks).
    - Requests are served one at a time: a handler and the callbacks it
      registers run to the end before the next request starts.
    - JavaScript numbers that hold money are kept abstract ([Number]):
      nothing is assumed of their sum and product. The instance [cents]
      reads them as integer cents for the runs on the sample data.
    - A quantity in a request body is an integer JSON number, in the
      range where JavaScript numbers are exact, or left out. The
      theorems leave open which quantity a cart request stores: other
      JSON values go through [parseInt] and number addition, which this
      reading does not cover.
    - The [users] table and the timestamp columns are left out; the
      caller's id and role are what [authenticateToken] put in
      [req.user]. *)

From Stdlib Require Import ZArith NArith List String Ascii Bool Lia DecimalString.
From Stdlib Require Import Permutation.
Import ListNotations.

Set Implicit Arguments.
Local Open Scope string_scope.
Local Open Scope list_scope.
Local Open Scope Z_scope.

(** ** Money *)

(** The arithmetic the handlers perform on prices: [0], [+], [price *
    quantity] and [parseFloat(x.toFixed(2))]. *)
Class Number (num : Type) : Type := {
  nzero : num;
  nadd : num -> num -> num;
  nmul : num -> Z -> num;
  toFixed2 : num -> num
}.

(** Amounts as whole cents: a value with two decimals is its own
    [toFixed(2)]. Integer sums commute and associate, which sums of
    JavaScript numbers do not: this instance serves to run the handlers
    on the sample data, and no theorem rests on its algebra beyond
    those runs. *)
#[export] Instance cents : Number Z := {
  nzero := 0;
  nadd := Z.add;
  nmul := Z.mul;
  toFixed2 := fun x => x
}.

(** ** Schema (database/init.js) *)

Section Schema.
Context {num : Type}.

(** [products]: the columns the cart and order routes read or write. *)
Record product : Type := {
  p_id : Z;
  p_title : string;
  p_price : num;
  p_seller_id : Z;
  p_status : string
}.

Record cart_row : Type := {
  c_id : Z;
  c_user_id : Z;
  c_product_id : Z;
  c_quantity : Z
}.

Record order : Type := {
  o_id : Z;
  o_user_id : Z;
  o_total_amount : num;
  o_status : string;
  o_customer_name : string;
  o_customer_email : string;
  o_customer_phone : string;
  o_delivery_address : string;
  o_delivery_notes : option string;
  o_order_number : string
}.

Record order_item : Type := {
  oi_id : Z;
  oi_order_id : Z;
  oi_product_id : Z;
  oi_quantity : Z;
  oi_price : num
}.

(** The four tables, and for each AUTOINCREMENT key the largest rowid
    handed out so far (sqlite_sequence). *)
Record tables : Type := {
  products : list product;
  cart : list cart_row;
  orders : list order;
  order_items : list order_item;
  seq_cart : Z;
  seq_orders : Z;
  seq_order_items : Z
}.

(** A row of the cart query: [c.*, p.title, p.price, p.seller_id]. *)
Record cart_item : Type := {
  ci_id : Z;
  ci_user_id : Z;
  ci_product_id : Z;
  ci_quantity : Z;
  ci_title : string;
  ci_price : num;
  ci_seller_id : Z
}.

(** A row of the order-detail items query: [oi.*, p.title]. *)
Record detail_item : Type := {
  di_item : order_item;
  di_title : string
}.

End Schema.

Arguments product : clear implicits.
Arguments order : clear implicits.
Arguments order_item : clear implicits.
Arguments tables : clear implicits.
Arguments cart_item : clear implicits.
Arguments detail_item : clear implicits.

(** ** SQL statements and the driver *)

(** The statements the modelled routes issue, with their integer
    parameters. *)
Inductive stmt : Type :=
| SelCartAvailable (user : Z)
| InsOrder (user : Z) (order_number : string)
| InsOrderItem (order_id product_id quantity : Z)
| UpdProductsSold (ids : list Z)
| DelCartUser (user : Z)
| SelCartItem (item user : Z)
| UpdCartQuantity (item quantity : Z)
| DelCartItem (item : Z)
| SelProduct (product_id : Z)
| SelCartUserProduct (user product_id : Z)
| InsCart (user product_id quantity : Z)
| UpdProduct (product_id : Z)
| SelOrder (order_id user : Z)
| SelOrderItems (order_id : Z).

(** [fault k s]: the driver reports an error for statement [s] when it is
    the [k]-th statement issued since start-up. *)
Definition oracle : Type := nat -> stmt -> bool.

Record world (num : Type) : Type := {
  db : tables num;
  journal : list stmt;
  fault : oracle
}.

Arguments Build_world {num} _ _ _.
Arguments db {num} _.
Arguments journal {num} _.
Arguments fault {num} _.

(** No statement ever fails. *)
Definition reliable : oracle := fun _ _ => false.

(** Handlers run in the state monad over worlds. *)
Definition M (num A : Type) : Type := world num -> A * world num.

Definition ret {num A : Type} (a : A) : M num A := fun w => (a, w).

Definition bind {num A B : Type} (m : M num A) (k : A -> M num B) : M num B :=
  fun w => let (a, w') := m w in k a w'.

Notation "x <- m ;; k" := (bind m (fun x => k))
  (at level 61, m at next level, right associativity).

(** Issue statement [s]: it enters the journal, and the result is [true]
    when the driver reports an error. *)
Definition issue {num : Type} (s : stmt) : M num bool :=
  fun w =>
    (fault w (List.length (journal w)) s,
     Build_world (db w) (journal w ++ [s]) (fault w)).

(** Replace the tables. *)
Definition commit {num : Type} (f : tables num -> tables num) : M num unit :=
  fun w => (tt, Build_world (f (db w)) (journal w) (fault w)).

Definition read {num A : Type} (f : tables num -> A) : M num A :=
  fun w => (f (db w), w).

(** ** Responses *)

(** [res.status(status).json(body)]. *)
Inductive body (num : Type) : Type :=
| Error (error : string)
| Message (message : string)
| Receipt (message : string) (orderId : Z) (orderNumber : string)
    (totalAmount : num) (customerName deliveryAddress : string)
    (itemCount : nat)
| OrderDetail (o : order num) (items : list (detail_item num)).

Arguments Error {num} _.
Arguments Message {num} _.
Arguments Receipt {num} _ _ _ _ _ _ _.
Arguments OrderDetail {num} _ _.

Record response (num : Type) : Type := {
  status : nat;
  json : body num
}.

Arguments Build_response {num} _ _.
Arguments status {num} _.
Arguments json {num} _.

(** ** JavaScript values *)

(** [!v] for a request field that is absent or a string. *)
Definition falsy (v : option string) : bool :=
  match v with
  | None => true
  | Some s => (s =? "")%string
  end.

(** The string bound to a statement parameter. *)
Definition str (v : option string) : string :=
  match v with
  | None => ""
  | Some s => s
  end.

(** [!v] for a request field that is absent or an integer. *)
Definition falsy_int (v : option Z) : bool :=
  match v with
  | None => true
  | Some n => n =? 0
  end.

(** Digit [d] of a radix-36 numeral. *)
Definition digit36 (d : nat) : ascii :=
  if Nat.ltb d 10 then ascii_of_nat (48 + d) else ascii_of_nat (87 + d).

(** [x.toString(36)] for [0 <= x < 1], given by the radix-36 digits of its
    fraction: ["0"] when there is none, ["0.d1d2..."] otherwise. *)
Definition toString36 (fraction : list nat) : string :=
  match fraction with
  | [] => "0"
  | _ => String.append "0." (string_of_list_ascii (map digit36 fraction))
  end.

(** [c.toUpperCase()] on ASCII. *)
Definition upper (c : ascii) : ascii :=
  let n := nat_of_ascii c in
  if Nat.leb 97 n && Nat.leb n 122 then ascii_of_nat (n - 32) else c.

Fixpoint toUpperCase (s : string) : string :=
  match s with
  | EmptyString => EmptyString
  | String c s' => String (upper c) (toUpperCase s')
  end.

(** [s.substr(start, length)]. *)
Definition substr (start length : nat) (s : string) : string :=
  String.substring start length s.

(** Decimal numeral of [Date.now()]. *)
Definition string_of_N (n : N) : string :=
  NilEmpty.string_of_uint (N.to_uint n).

(** ['ECO-' + Date.now() + '-' +
     Math.random().toString(36).substr(2, 5).toUpperCase()],
    with [now] for [Date.now()] and [random] for the radix-36 digits of
    [Math.random()]. *)
Definition suffix (random : list nat) : string :=
  toUpperCase (substr 2 5 (toString36 random)).

Definition orderNumber (now : N) (random : list nat) : string :=
  String.append "ECO-"
    (String.append (string_of_N now) (String.append "-" (suffix random))).

(** ** Table operations *)

Section Statements.
Context {num : Type} {number : Number num}.

Definition available (p : product num) : bool :=
  (p_status p =? "available")%string.

(** [SELECT c.*, p.title, p.price, p.seller_id FROM cart c
     JOIN products p ON c.product_id = p.id
     WHERE c.user_id = ? AND p.status = 'available'] *)
Definition join_cart (t : tables num) (c : cart_row) : list (cart_item num) :=
  map (fun p =>
         {| ci_id := c_id c; ci_user_id := c_user_id c;
            ci_product_id := c_product_id c; ci_quantity := c_quantity c;
            ci_title := p_title p; ci_price := p_price p;
            ci_seller_id := p_seller_id p |})
      (filter (fun p => (p_id p =? c_product_id c) && available p)
              (products t)).

Definition cartQuery (t : tables num) (userId : Z) : list (cart_item num) :=
  flat_map (join_cart t) (filter (fun c => c_user_id c =? userId) (cart t)).

(** [INSERT INTO orders (...) VALUES (..., 'completed')]; the new row takes
    the next AUTOINCREMENT id. *)
Definition add_order (o : Z -> order num) (t : tables num) : tables num :=
  {| products := products t; cart := cart t;
     orders := orders t ++ [o (seq_orders t + 1)];
     order_items := order_items t;
     seq_cart := seq_cart t; seq_orders := seq_orders t + 1;
     seq_order_items := seq_order_items t |}.

(** [INSERT INTO order_items (order_id, product_id, quantity, price)].
    Its foreign keys hold on this path: the order was just inserted and
    the product was just read by the cart query. *)
Definition add_order_item (orderId : Z) (item : cart_item num)
    (t : tables num) : tables num :=
  {| products := products t; cart := cart t; orders := orders t;
     order_items :=
       order_items t ++
       [{| oi_id := seq_order_items t + 1; oi_order_id := orderId;
           oi_product_id := ci_product_id item;
           oi_quantity := ci_quantity item; oi_price := ci_price item |}];
     seq_cart := seq_cart t; seq_orders := seq_orders t;
     seq_order_items := seq_order_items t + 1 |}.

Definition mem (x : Z) (l : list Z) : bool := existsb (Z.eqb x) l.

Definition sell (ids : list Z) (p : product num) : product num :=
  if mem (p_id p) ids
  then {| p_id := p_id p; p_title := p_title p; p_price := p_price p;
          p_seller_id := p_seller_id p; p_status := "sold" |}
  else p.

(** [UPDATE products SET status = 'sold' WHERE id IN (...)] *)
Definition mark_sold (ids : list Z) (t : tables num) : tables num :=
  {| products := map (sell ids) (products t); cart := cart t;
     orders := orders t; order_items := order_items t;
     seq_cart := seq_cart t; seq_orders := seq_orders t;
     seq_order_items := seq_order_items t |}.

Definition set_cart (f : list cart_row -> list cart_row) (t : tables num)
    : tables num :=
  {| products := products t; cart := f (cart t);
     orders := orders t; order_items := order_items t;
     seq_cart := seq_cart t; seq_orders := seq_orders t;
     seq_order_items := seq_order_items t |}.

(** [DELETE FROM cart WHERE user_id = ?] *)
Definition delete_cart_user (userId : Z) : tables num -> tables num :=
  set_cart (filter (fun c => negb (c_user_id c =? userId))).

(** [DELETE FROM cart WHERE id = ?] *)
Definition delete_cart_item (itemId : Z) : tables num -> tables num :=
  set_cart (filter (fun c => negb (c_id c =? itemId))).

Definition requantify (itemId quantity : Z) (c : cart_row) : cart_row :=
  if c_id c =? itemId
  then {| c_id := c_id c; c_user_id := c_user_id c;
          c_product_id := c_product_id c; c_quantity := quantity |}
  else c.

(** [UPDATE cart SET quantity = ? WHERE id = ?] *)
Definition update_cart_quantity (itemId quantity : Z)
    : tables num -> tables num :=
  set_cart (map (requantify itemId quantity)).

(** [INSERT INTO cart (user_id, product_id, quantity)] *)
Definition add_cart_row (userId productId quantity : Z) (t : tables num)
    : tables num :=
  {| products := products t;
     cart := cart t ++
       [{| c_id := seq_cart t + 1; c_user_id := userId;
           c_product_id := productId; c_quantity := quantity |}];
     orders := orders t; order_items := order_items t;
     seq_cart := seq_cart t + 1; seq_orders := seq_orders t;
     seq_order_items := seq_order_items t |}.

Definition rewrite_product (productId : Z) (title : string) (price : num)
    (status : string) (p : product num) : product num :=
  if p_id p =? productId
  then {| p_id := p_id p; p_title := title; p_price := price;
          p_seller_id := p_seller_id p; p_status := status |}
  else p.

(** [UPDATE products SET title = ?, ..., price = ?, ..., status = ?
     WHERE id = ?] *)
Definition update_product_row (productId : Z) (title : string) (price : num)
    (status : string) (t : tables num) : tables num :=
  {| products := map (rewrite_product productId title price status)
                     (products t);
     cart := cart t; orders := orders t; order_items := order_items t;
     seq_cart := seq_cart t; seq_orders := seq_orders t;
     seq_order_items := seq_order_items t |}.

(** Run a write: on a driver error the tables stay as they are. The result
    is the [err] the callback receives. *)
Definition write (s : stmt) (f : tables num -> tables num) : M num bool :=
  err <- issue s ;;
  if err then ret true else _ <- commit f ;; ret false.

(** Run a query: [None] is the callback's [err]. *)
Definition query {A : Type} (s : stmt) (f : tables num -> A)
    : M num (option A) :=
  err <- issue s ;;
  if err then ret None else rows <- read f ;; ret (Some rows).

End Statements.

(** ** routes/orders.js *)

Section Orders.
Context {num : Type} {number : Number num}.

(** The body of [POST /checkout]. *)
Record checkout_body : Type := {
  fullName : option string;
  email : option string;
  phone : option string;
  deliveryAddress : option string;
  deliveryNotes : option string
}.

(** [cartItems.reduce((sum, item) => sum + (item.price * item.quantity), 0)] *)
Definition totalAmount (cartItems : list (cart_item num)) : num :=
  fold_left (fun sum item => nadd sum (nmul (ci_price item) (ci_quantity item)))
            cartItems nzero.

(** [orderStmt.run]: fails on a driver error and on a taken [order_number]
    (the column is UNIQUE); otherwise the callback sees [this.lastID]. *)
Definition insert_order (userId : Z) (number_ : string)
    (o : Z -> order num) : M num (option Z) :=
  err <- issue (InsOrder userId number_) ;;
  taken <- read (fun t =>
    existsb (fun o' => (o_order_number o' =? number_)%string) (orders t)) ;;
  if err || taken then ret None
  else
    lastID <- read (fun t => seq_orders t + 1) ;;
    _ <- commit (add_order o) ;;
    ret (Some lastID).

(** What the last [orderItemStmt.run] callback does once
    [itemsProcessed === totalItems]: mark the products sold, clear the
    cart (errors are logged only) and answer 201. *)
Definition finalize (userId orderId : Z) (number_ : string)
    (b : checkout_body) (cartItems : list (cart_item num))
    : M num (response num) :=
  _ <- write (UpdProductsSold (map (@ci_product_id num) cartItems))
             (mark_sold (map (@ci_product_id num) cartItems)) ;;
  _ <- write (DelCartUser userId) (delete_cart_user userId) ;;
  ret {| status := 201;
         json := Receipt "Order placed successfully" orderId number_
                   (toFixed2 (totalAmount cartItems))
                   (str (fullName b)) (str (deliveryAddress b))
                   (List.length cartItems) |}.

(** [cartItems.forEach(item => orderItemStmt.run([...], (err) => {...}))]:
    a failed insert is logged and counted like a successful one; the
    callback that brings [itemsProcessed] to [totalItems] finalizes and
    answers. [None]: no response was sent. *)
Fixpoint insert_items (orderId : Z) (items : list (cart_item num))
    (itemsProcessed totalItems : nat) (finish : M num (response num))
    : M num (option (response num)) :=
  match items with
  | [] => ret None
  | item :: rest =>
      _ <- write (InsOrderItem orderId (ci_product_id item) (ci_quantity item))
                 (add_order_item orderId item) ;;
      if Nat.eqb (S itemsProcessed) totalItems
      then r <- finish ;; ret (Some r)
      else insert_items orderId rest (S itemsProcessed) totalItems finish
  end.

(** [router.post('/checkout', ...)]; [now] is [Date.now()] and [random]
    the radix-36 digits of [Math.random()]. *)
Definition checkout (userId : Z) (b : checkout_body) (now : N)
    (random : list nat) : M num (option (response num)) :=
  if falsy (fullName b) || falsy (email b) || falsy (phone b)
     || falsy (deliveryAddress b)
  then ret (Some {| status := 400;
                    json := Error "Full name, email, phone, and delivery address are required" |})
  else
    rows <- query (SelCartAvailable userId) (fun t => cartQuery t userId) ;;
    match rows with
    | None => ret (Some {| status := 500; json := Error "Database error" |})
    | Some cartItems =>
        if Nat.eqb (List.length cartItems) 0
        then ret (Some {| status := 400; json := Error "Cart is empty" |})
        else
          let number_ := orderNumber now random in
          created <- insert_order userId number_
            (fun id =>
               {| o_id := id; o_user_id := userId;
                  o_total_amount := totalAmount cartItems;
                  o_status := "completed";
                  o_customer_name := str (fullName b);
                  o_customer_email := str (email b);
                  o_customer_phone := str (phone b);
                  o_delivery_address := str (deliveryAddress b);
                  o_delivery_notes := deliveryNotes b;
                  o_order_number := number_ |}) ;;
          match created with
          | None => ret (Some {| status := 500;
                                 json := Error "Failed to create order" |})
          | Some orderId =>
              insert_items orderId cartItems 0 (List.length cartItems)
                (finalize userId orderId number_ b cartItems)
          end
    end.

(** [SELECT * FROM orders WHERE id = ? AND user_id = ?] *)
Definition orderQuery (orderId userId : Z) (t : tables num)
    : option (order num) :=
  find (fun o => (o_id o =? orderId) && (o_user_id o =? userId)) (orders t).

(** [SELECT oi.*, p.title, ... FROM order_items oi
     JOIN products p ON oi.product_id = p.id ... WHERE oi.order_id = ?] *)
Definition itemsQuery (orderId : Z) (t : tables num)
    : list (detail_item num) :=
  flat_map (fun oi =>
              map (fun p => {| di_item := oi; di_title := p_title p |})
                  (filter (fun p => p_id p =? oi_product_id oi) (products t)))
           (filter (fun oi => oi_order_id oi =? orderId) (order_items t)).

(** [router.get('/:orderId', ...)] *)
Definition order_detail (userId orderId : Z) : M num (response num) :=
  row <- query (SelOrder orderId userId) (orderQuery orderId userId) ;;
  match row with
  | None => ret {| status := 500; json := Error "Database error" |}
  | Some None => ret {| status := 404; json := Error "Order not found" |}
  | Some (Some o) =>
      rows <- query (SelOrderItems orderId) (itemsQuery orderId) ;;
      match rows with
      | None => ret {| status := 500; json := Error "Database error" |}
      | Some items => ret {| status := 200; json := OrderDetail o items |}
      end
  end.

End Orders.

(** ** routes/cart.js *)

Section Cart.
Context {num : Type} {number : Number num}.

(** [SELECT id FROM cart WHERE id = ? AND user_id = ?] *)
Definition cartItemQuery (itemId userId : Z) (t : tables num)
    : option cart_row :=
  find (fun c => (c_id c =? itemId) && (c_user_id c =? userId)) (cart t).

(** [SELECT id, seller_id, status FROM products WHERE id = ?] *)
Definition productQuery (productId : Z) (t : tables num)
    : option (product num) :=
  find (fun p => p_id p =? productId) (products t).

(** [SELECT id, quantity FROM cart WHERE user_id = ? AND product_id = ?] *)
Definition existingQuery (userId productId : Z) (t : tables num)
    : option cart_row :=
  find (fun c => (c_user_id c =? userId) && (c_product_id c =? productId))
       (cart t).

(** [router.post('/add', ...)]. [quantity] is an integer JSON number or
    left out ([None]), in which case it defaults to 1; on integers
    [parseInt(quantity)] is [quantity] and [existing.quantity +
    parseInt(quantity)] the integer sum, as long as it stays below 2^53. *)
Definition add_item (userId : Z) (productId quantity : option Z)
    : M num (response num) :=
  let quantity := match quantity with Some q => q | None => 1 end in
  if falsy_int productId
  then ret {| status := 400; json := Error "Product ID is required" |}
  else
    let productId := match productId with Some p => p | None => 0 end in
    row <- query (SelProduct productId) (productQuery productId) ;;
    match row with
    | None => ret {| status := 500; json := Error "Database error" |}
    | Some None => ret {| status := 404; json := Error "Product not found" |}
    | Some (Some product) =>
        if negb (available product)
        then ret {| status := 400; json := Error "Product is not available" |}
        else if p_seller_id product =? userId
        then ret {| status := 400;
                    json := Error "You cannot add your own product to cart" |}
        else
          row <- query (SelCartUserProduct userId productId)
                       (existingQuery userId productId) ;;
          match row with
          | None => ret {| status := 500; json := Error "Database error" |}
          | Some (Some existingItem) =>
              let newQuantity := c_quantity existingItem + quantity in
              err <- write (UpdCartQuantity (c_id existingItem) newQuantity)
                       (update_cart_quantity (c_id existingItem) newQuantity) ;;
              if err
              then ret {| status := 500;
                          json := Error "Failed to update cart" |}
              else ret {| status := 200;
                          json := Message "Cart updated successfully" |}
          | Some None =>
              err <- write (InsCart userId productId quantity)
                       (add_cart_row userId productId quantity) ;;
              if err
              then ret {| status := 500;
                          json := Error "Failed to add to cart" |}
              else ret {| status := 201;
                          json := Message "Item added to cart successfully" |}
          end
    end.

(** [router.put('/update/:itemId', ...)]. [quantity] is an integer JSON
    number, or left out or null ([None]); on integers below 10^21
    [parseInt(quantity)] is [quantity]. *)
Definition update_item (userId itemId : Z) (quantity : option Z)
    : M num (response num) :=
  if falsy_int quantity
     || (match quantity with Some q => q <? 1 | None => false end)
  then ret {| status := 400; json := Error "Valid quantity is required" |}
  else
    let quantity := match quantity with Some q => q | None => 0 end in
    row <- query (SelCartItem itemId userId) (cartItemQuery itemId userId) ;;
    match row with
    | None => ret {| status := 500; json := Error "Database error" |}
    | Some None => ret {| status := 404; json := Error "Cart item not found" |}
    | Some (Some cartItem) =>
        err <- write (UpdCartQuantity itemId quantity)
                 (update_cart_quantity itemId quantity) ;;
        if err
        then ret {| status := 500;
                    json := Error "Failed to update cart item" |}
        else ret {| status := 200;
                    json := Message "Cart item updated successfully" |}
    end.

(** [router.delete('/remove/:itemId', ...)] *)
Definition remove_item (userId itemId : Z) : M num (response num) :=
  row <- query (SelCartItem itemId userId) (cartItemQuery itemId userId) ;;
  match row with
  | None => ret {| status := 500; json := Error "Database error" |}
  | Some None => ret {| status := 404; json := Error "Cart item not found" |}
  | Some (Some cartItem) =>
      err <- write (DelCartItem itemId) (delete_cart_item itemId) ;;
      if err
      then ret {| status := 500;
                  json := Error "Failed to remove cart item" |}
      else ret {| status := 200;
                  json := Message "Item removed from cart successfully" |}
  end.

(** [router.delete('/clear', ...)] *)
Definition clear (userId : Z) : M num (response num) :=
  err <- write (DelCartUser userId) (delete_cart_user userId) ;;
  if err
  then ret {| status := 500; json := Error "Failed to clear cart" |}
  else ret {| status := 200; json := Message "Cart cleared successfully" |}.

End Cart.

(** ** routes/products.js *)

Section Products.
Context {num : Type} {number : Number num}.

(** The fields of the body of [PUT /:id] that reach modelled columns;
    [price] is [parseFloat(price)]. *)
Record product_body : Type := {
  title : string;
  price : num;
  new_status : option string
}.

(** [status || 'available'] *)
Definition status_or_available (s : option string) : string :=
  if falsy s then "available" else str s.

(** [router.put('/:id', ...)] *)
Definition update_product (userId : Z) (role : string) (productId : Z)
    (b : product_body) : M num (response num) :=
  row <- query (SelProduct productId) (productQuery productId) ;;
  match row with
  | None => ret {| status := 500; json := Error "Database error" |}
  | Some None => ret {| status := 404; json := Error "Product not found" |}
  | Some (Some product) =>
      if negb (p_seller_id product =? userId)
         && negb (role =? "admin")%string
      then ret {| status := 403;
                  json := Error "You can only edit your own products" |}
      else
        err <- write (UpdProduct productId)
                 (update_product_row productId (title b) (price b)
                    (status_or_available (new_status b))) ;;
        if err
        then ret {| status := 500; json := Error "Failed to update product" |}
        else ret {| status := 200;
                    json := Message "Product updated successfully" |}
  end.

End Products.

Arguments product_body : clear implicits.

(** ** frontend/js/main.js: the cart page *)

(** [Utils.showToast(message, type)]. *)
Record toast : Type := {
  message : string;
  type_ : string
}.

(** The argument of [CartPage.updateQuantity] enters through two
    operations only: [newQuantity < 1] and [parseInt(newQuantity)]
    ([None]: NaN, which [JSON.stringify] sends as null). *)
Record js_quantity : Type := {
  below_one : bool;
  parseInt : option Z
}.

Section CartPage.
Context {num : Type} {number : Number num}.

(** [response.ok]: the status is in 200..299; [Utils.makeRequest] throws
    otherwise. *)
Definition ok (r : response num) : bool :=
  Nat.leb 200 (status r) && Nat.leb (status r) 299.

(** [CartPage.removeItem(itemId)] on a page logged in as [userId]: it
    sends [DELETE /api/cart/remove/<itemId>] with the caller's token and
    shows a toast. After a success it reloads the cart and the count:
    two GET requests, which read. A request that does not reach the
    server is left out. *)
Definition CartPage_removeItem (userId itemId : Z) : M num toast :=
  r <- remove_item userId itemId ;;
  if ok r
  then ret {| message := "Item removed from cart"; type_ := "success" |}
  else ret {| message := "Failed to remove item"; type_ := "error" |}.

(** [CartPage.updateQuantity(itemId, newQuantity)]: below 1 it is
    [this.removeItem(itemId)], which it does not await - the state taken
    here is the one the removal ends in; otherwise it sends
    [PUT /api/cart/update/<itemId>] with [{ quantity:
    parseInt(newQuantity) }] and shows a toast only when that fails.
    [None]: no toast. *)
Definition CartPage_updateQuantity (userId itemId : Z)
    (newQuantity : js_quantity) : M num (option toast) :=
  if below_one newQuantity
  then t <- CartPage_removeItem userId itemId ;; ret (Some t)
  else
    r <- update_item userId itemId (parseInt newQuantity) ;;
    if ok r
    then ret None
    else ret (Some {| message := "Failed to update quantity";
                      type_ := "error" |}).

End CartPage.

(** ** Requests as operations, and properties of the tables *)

Section Properties.
Context {num : Type} {number : Number num}.

(** One request to a modelled route. *)
Inductive op : Type :=
| Add (userId : Z) (productId quantity : option Z)
| UpdateQuantity (userId itemId : Z) (quantity : option Z)
| Remove (userId itemId : Z)
| Clear (userId : Z)
| Checkout (userId : Z) (b : checkout_body) (now : N) (random : list nat)
| UpdateProduct (userId : Z) (role : string) (productId : Z)
    (b : product_body num).

(** The world once the request has been served. *)
Definition run (o : op) (w : world num) : world num :=
  match o with
  | Add u p q => snd (add_item u p q w)
  | UpdateQuantity u i q => snd (update_item u i q w)
  | Remove u i => snd (remove_item u i w)
  | Clear u => snd (clear u w)
  | Checkout u b now random => snd (checkout u b now random w)
  | UpdateProduct u r p b => snd (update_product u r p b w)
  end.

Definition run_all (ops : list op) (w : world num) : world num :=
  fold_left (fun w o => run o w) ops w.

(** The OrderLines of an order, and the sum of price × quantity over
    them, added up left to right as the handlers do. *)
Definition lines_of (t : tables num) (orderId : Z) : list (order_item num) :=
  filter (fun oi => oi_order_id oi =? orderId) (order_items t).

Definition lines_total (lines : list (order_item num)) : num :=
  fold_left (fun sum l => nadd sum (nmul (oi_price l) (oi_quantity l)))
            lines nzero.

(** Some row of product [pid] has the given status. *)
Definition has_status (s : string) (t : tables num) (pid : Z) : bool :=
  existsb (fun p => (p_id p =? pid) && (p_status p =? s)%string) (products t).

Definition is_available : tables num -> Z -> bool := has_status "available".
Definition is_sold : tables num -> Z -> bool := has_status "sold".


(** No two distinct Orders have an OrderLine for the same product. *)
Definition one_order_per_product (t : tables num) : Prop :=
  forall l1 l2, In l1 (order_items t) -> In l2 (order_items t) ->
    oi_product_id l1 = oi_product_id l2 -> oi_order_id l1 = oi_order_id l2.

(** A product with an OrderLine is not available. *)
Definition ordered_unavailable (t : tables num) : Prop :=
  forall l, In l (order_items t) -> is_available t (oi_product_id l) = false.

(** How often product [pid] goes from available to sold while [ops] are
    served from [w]. *)
Fixpoint sold_transitions (pid : Z) (ops : list op) (w : world num) : nat :=
  match ops with
  | [] => 0
  | o :: rest =>
      ((if is_available (db w) pid && negb (is_available (db (run o w)) pid)
           && is_sold (db (run o w)) pid
        then 1 else 0)
       + sold_transitions pid rest (run o w))%nat
  end.

(** A product update that goes through (it is answered 200: its UPDATE
    ran) writes status 'available' only onto a product that is available.
    An update that is refused or fails writes nothing and is free. *)
Definition keeps_sold (o : op) (w : world num) : Prop :=
  match o with
  | UpdateProduct userId role productId b =>
      status (fst (update_product userId role productId b w)) = 200%nat ->
      status_or_available (new_status b) = "available" ->
      is_available (db w) productId = true
  | _ => True
  end.

Fixpoint no_relisting (ops : list op) (w : world num) : Prop :=
  match ops with
  | [] => True
  | o :: rest => keeps_sold o w /\ no_relisting rest (run o w)
  end.

(** The bulk status update of checkout never fails. *)
Definition sold_update_reliable (f : oracle) : Prop :=
  forall k ids, f k (UpdProductsSold ids) = false.

(** No insert of an OrderLine fails. *)
Definition line_inserts_reliable (f : oracle) : Prop :=
  forall k orderId productId quantity,
    f k (InsOrderItem orderId productId quantity) = false.

(** Both conjuncts of the single-sale property. *)
Definition sold_at_most_once (ops : list op) (w : world num) : Prop :=
  (forall pid, (sold_transitions pid ops w <= 1)%nat) /\
  one_order_per_product (db (run_all ops w)).

End Properties.

Arguments op : clear implicits.

(** ** Sample data (database/init.js), in cents *)

Definition jacket : product Z :=
  {| p_id := 1; p_title := "Vintage Leather Jacket"; p_price := 8999;
     p_seller_id := 2; p_status := "available" |}.

Definition chair : product Z :=
  {| p_id := 2; p_title := "Antique Wooden Chair"; p_price := 7500;
     p_seller_id := 2; p_status := "available" |}.

(** user1 (id 3) holds one jacket and two chairs; nobody has ordered. *)
Definition shop : tables Z :=
  {| products := [jacket; chair];
     cart := [ {| c_id := 1; c_user_id := 3; c_product_id := 1;
                  c_quantity := 1 |};
               {| c_id := 2; c_user_id := 3; c_product_id := 2;
                  c_quantity := 2 |} ];
     orders := []; order_items := [];
     seq_cart := 2; seq_orders := 0; seq_order_items := 0 |}.

(** The shop with both products sold elsewhere: user1's two lines are
    stale. *)
Definition sold_out_shop : tables Z :=
  {| products :=
       [ {| p_id := 1; p_title := "Vintage Leather Jacket"; p_price := 8999;
            p_seller_id := 2; p_status := "sold" |};
         {| p_id := 2; p_title := "Antique Wooden Chair"; p_price := 7500;
            p_seller_id := 2; p_status := "sold" |} ];
     cart := [ {| c_id := 1; c_user_id := 3; c_product_id := 1;
                  c_quantity := 1 |};
               {| c_id := 2; c_user_id := 3; c_product_id := 2;
                  c_quantity := 2 |} ];
     orders := []; order_items := [];
     seq_cart := 2; seq_orders := 0; seq_order_items := 0 |}.

(** The quantity 0, as the minus button passes it for a line of one. *)
Definition zero : js_quantity := {| below_one := true; parseInt := Some 0 |}.

(** The same shop with empty carts. *)
Definition quiet_shop : tables Z :=
  {| products := [jacket; chair]; cart := [];
     orders := []; order_items := [];
     seq_cart := 0; seq_orders := 0; seq_order_items := 0 |}.

Definition start (t : tables Z) (f : oracle) : world Z :=
  {| db := t; journal := []; fault := f |}.

Definition jane : checkout_body :=
  {| fullName := Some "Jane Doe"; email := Some "user1@ecofinds.com";
     phone := Some "+1234567892"; deliveryAddress := Some "789 User Blvd";
     deliveryNotes := None |}.

Definition mike : checkout_body :=
  {| fullName := Some "Mike Johnson"; email := Some "user2@ecofinds.com";
     phone := Some "+1234567893"; deliveryAddress := Some "321 User Lane";
     deliveryNotes := None |}.

(** A body without [deliveryAddress]. *)
Definition no_address : checkout_body :=
  {| fullName := Some "Jane Doe"; email := Some "user1@ecofinds.com";
     phone := Some "+1234567892"; deliveryAddress := None;
     deliveryNotes := None |}.

(** The driver fails the insert of the OrderLine for the chair. *)
Definition chair_line_fails : oracle :=
  fun _ s =>
    match s with
    | InsOrderItem _ productId _ => productId =? 2
    | _ => false
    end.


(** [Math.random()] returned 0.5, whose radix-36 numeral is "0.i". *)
Definition one_half : list nat := [18%nat].

(** user1 buys the jacket, the seller edits the listing without a status,
    and user2 buys it again. *)
Definition resale : list (op Z) :=
  [ Add 3 (Some 1) None;
    Checkout 3 jane 1700000000000%N [1; 2; 3; 4; 5; 6]%nat;
    UpdateProduct 2 "seller" 1
      {| title := "Vintage Leather Jacket"; price := 7999;
         new_status := None |};
    Add 4 (Some 1) None;
    Checkout 4 mike 1700000360000%N [7; 8; 9; 10; 11; 12]%nat ].

(** ** The claims as the specification words them *)

Section Claims.
Context {num : Type} {number : Number num}.

Definition validation_error : response num :=
  {| status := 400;
     json := Error "Full name, email, phone, and delivery address are required" |}.

Definition empty_cart : response num :=
  {| status := 400; json := Error "Cart is empty" |}.

Definition order_not_found : response num :=
  {| status := 404; json := Error "Order not found" |}.

Definition cart_item_not_found : response num :=
  {| status := 404; json := Error "Cart item not found" |}.

Definition invalid_quantity : response num :=
  {| status := 400; json := Error "Valid quantity is required" |}.

(** All four required delivery fields are given. *)
Definition complete (b : checkout_body) : bool :=
  negb (falsy (fullName b) || falsy (email b) || falsy (phone b)
        || falsy (deliveryAddress b)).

(** Statement [s] issued next in [w] does not fail. *)
Definition succeeds (s : stmt) (w : world num) : Prop :=
  fault w (List.length (journal w)) s = false.

(** The world after statement [s] was issued without changing a table. *)
Definition logged (s : stmt) (w : world num) : world num :=
  {| db := db w; journal := journal w ++ [s]; fault := fault w |}.

(** The success receipt carries the sum over exactly the persisted
    OrderLines of its order. *)
Definition total_matches_lines (r : option (response num)) (w' : world num)
    : Prop :=
  forall m orderId n total name address count,
    r = Some {| status := 201;
                json := Receipt m orderId n total name address count |} ->
    total = lines_total (lines_of (db w') orderId).

(** Removing a line the caller does not have is a successful no-op. *)
Definition remove_is_idempotent (userId itemId : Z) (w : world num) : Prop :=
  cartItemQuery itemId userId (db w) = None ->
  status (fst (remove_item userId itemId w)) = 200%nat /\
  db (snd (remove_item userId itemId w)) = db w.

(** Every character is a digit or an upper-case letter. *)
Definition upper_alnum (c : ascii) : bool :=
  let n := nat_of_ascii c in
  (Nat.leb 48 n && Nat.leb n 57) || (Nat.leb 65 n && Nat.leb n 90).

Definition five_upper_alnum (s : string) : Prop :=
  String.length s = 5%nat /\
  forallb upper_alnum (list_ascii_of_string s) = true.

(** The OrderLine inserts of checkout, one after the other. *)
Definition write_items (orderId : Z) (items : list (cart_item num))
    (w : world num) : world num :=
  fold_left
    (fun w item =>
       snd (write (InsOrderItem orderId (ci_product_id item)
                     (ci_quantity item))
                  (add_order_item orderId item) w))
    items w.

(** The Order row that checkout inserts. *)
Definition new_order (userId : Z) (b : checkout_body) (number_ : string)
    (cartItems : list (cart_item num)) (id : Z) : order num :=
  {| o_id := id; o_user_id := userId;
     o_total_amount := totalAmount cartItems;
     o_status := "completed";
     o_customer_name := str (fullName b);
     o_customer_email := str (email b);
     o_customer_phone := str (phone b);
     o_delivery_address := str (deliveryAddress b);
     o_delivery_notes := deliveryNotes b;
     o_order_number := number_ |}.

(** The world once the cart was read and the Order row inserted. *)
Definition order_placed (userId : Z) (b : checkout_body) (number_ : string)
    (cartItems : list (cart_item num)) (w : world num) : world num :=
  {| db := add_order (new_order userId b number_ cartItems) (db w);
     journal := (journal w ++ [SelCartAvailable userId])
                ++ [InsOrder userId number_];
     fault := fault w |}.

(** The two writes of [finalize]. *)
Definition finalized (userId : Z) (cartItems : list (cart_item num))
    (w : world num) : world num :=
  snd (write (DelCartUser userId) (delete_cart_user userId)
         (snd (write (UpdProductsSold (map (@ci_product_id num) cartItems))
                 (mark_sold (map (@ci_product_id num) cartItems)) w))).

(** The 201 answer of checkout. *)
Definition receipt (orderId : Z) (number_ : string) (b : checkout_body)
    (cartItems : list (cart_item num)) : response num :=
  {| status := 201;
     json := Receipt "Order placed successfully" orderId number_
               (toFixed2 (totalAmount cartItems))
               (str (fullName b)) (str (deliveryAddress b))
               (List.length cartItems) |}.

(** The OrderLine rows for [items] when no insert fails, the first taking
    id [seq + 1]. *)
Fixpoint new_lines (orderId seq : Z) (items : list (cart_item num))
    : list (order_item num) :=
  match items with
  | [] => []
  | item :: rest =>
      {| oi_id := seq + 1; oi_order_id := orderId;
         oi_product_id := ci_product_id item;
         oi_quantity := ci_quantity item; oi_price := ci_price item |}
      :: new_lines orderId (seq + 1) rest
  end.

(** The order number is already on an Order. *)
Definition number_taken (number_ : string) (t : tables num) : bool :=
  existsb (fun o => (o_order_number o =? number_)%string) (orders t).

(** The five ways [POST /checkout] ends. *)
Inductive checkout_outcome (userId : Z) (b : checkout_body) (now : N)
    (random : list nat) (w : world num)
    : option (response num) -> world num -> Prop :=
| Incomplete :
    complete b = false ->
    checkout_outcome userId b now random w (Some validation_error) w
| CartUnread :
    complete b = true ->
    fault w (List.length (journal w)) (SelCartAvailable userId) = true ->
    checkout_outcome userId b now random w
      (Some {| status := 500; json := Error "Database error" |})
      (logged (SelCartAvailable userId) w)
| CartEmpty :
    complete b = true ->
    succeeds (SelCartAvailable userId) w ->
    cartQuery (db w) userId = [] ->
    checkout_outcome userId b now random w (Some empty_cart)
      (logged (SelCartAvailable userId) w)
| OrderRefused :
    complete b = true ->
    succeeds (SelCartAvailable userId) w ->
    cartQuery (db w) userId <> [] ->
    fault w (S (List.length (journal w)))
      (InsOrder userId (orderNumber now random))
    || number_taken (orderNumber now random) (db w) = true ->
    checkout_outcome userId b now random w
      (Some {| status := 500; json := Error "Failed to create order" |})
      (logged (InsOrder userId (orderNumber now random))
         (logged (SelCartAvailable userId) w))
| OrderPlaced :
    complete b = true ->
    succeeds (SelCartAvailable userId) w ->
    cartQuery (db w) userId <> [] ->
    fault w (S (List.length (journal w)))
      (InsOrder userId (orderNumber now random))
    || number_taken (orderNumber now random) (db w) = false ->
    checkout_outcome userId b now random w
      (Some (receipt (seq_orders (db w) + 1) (orderNumber now random) b
               (cartQuery (db w) userId)))
      (finalized userId (cartQuery (db w) userId)
         (write_items (seq_orders (db w) + 1) (cartQuery (db w) userId)
            (order_placed userId b (orderNumber now random)
               (cartQuery (db w) userId) w))).

End Claims.

(** user1 puts the jacket in the cart, the seller lowers the price of the
    chair, and user1 checks out. *)
Definition honest_sale : list (op Z) :=
  [ Add 3 (Some 1) None;
    UpdateProduct 2 "seller" 2
      {| title := "Antique Wooden Chair"; price := 6900;
         new_status := None |};
    Checkout 3 jane 1700000000000%N [1; 2; 3; 4; 5; 6]%nat ].

(** The same sale, after which user1 and a stranger try to relist the
    jacket and are refused, and the seller marks it sold again. *)
Definition watched_sale : list (op Z) :=
  honest_sale ++
  [ UpdateProduct 3 "user" 1
      {| title := "Vintage Leather Jacket"; price := 1; new_status := None |};
    UpdateProduct 4 "user" 1
      {| title := "Vintage Leather Jacket"; price := 1;
         new_status := Some "available" |};
    UpdateProduct 2 "seller" 1
      {| title := "Vintage Leather Jacket"; price := 8999;
         new_status := Some "sold" |} ].

(** The shop once that sale is through: order 1 belongs to user1. *)
Definition after_sale : world Z :=
  run_all honest_sale (start quiet_shop reliable).

(** ** The other routes *)

(** The answer of a route whose statements are not journalled: the [err]
    each callback receives is an input of the route. *)
Inductive answer (A : Type) : Type :=
| Refused (status : nat) (error : string)
| Served (status : nat) (data : A).

Arguments Refused {A} _ _.
Arguments Served {A} _ _.

Section Views.
Context {num : Type} {number : Number num}.

(** [SELECT ... FROM cart WHERE user_id = ?] *)
Definition lines_of_user (userId : Z) (t : tables num) : list cart_row :=
  filter (fun c => c_user_id c =? userId) (cart t).

(** The body of [GET /api/cart]. *)
Record cart_page : Type := {
  cp_cartItems : list (cart_item num);
  cp_total : num;
  cp_itemCount : nat
}.

(** [router.get('/', ...)] of cart.js. The query is the cart query of
    checkout with [ORDER BY c.added_at DESC]; [by_added_at] is that
    ordering and [err] what [db.all] reports. *)
Definition get_cart
    (by_added_at : list (cart_item num) -> list (cart_item num))
    (err : bool) (userId : Z) (t : tables num) : answer cart_page :=
  if err then Refused 500 "Database error"
  else
    let cartItems := by_added_at (cartQuery t userId) in
    Served 200 {| cp_cartItems := cartItems;
                  cp_total := toFixed2 (totalAmount cartItems);
                  cp_itemCount := List.length cartItems |}.

(** [router.get('/count', ...)]:
    [SELECT COUNT( * ) as count FROM cart WHERE user_id = ?] *)
Definition get_cart_count (err : bool) (userId : Z) (t : tables num)
    : answer nat :=
  if err then Refused 500 "Database error"
  else Served 200 (List.length (lines_of_user userId t)).

(** A row of the purchase history: [o.*], [GROUP_CONCAT(p.title)] (NULL
    without a title) and [COUNT(oi.id)]. *)
Record history_row : Type := {
  h_order : order num;
  h_product_titles : option string;
  h_item_count : nat
}.

(** [orders o LEFT JOIN order_items oi ON o.id = oi.order_id
     LEFT JOIN products p ON oi.product_id = p.id] for one order that has
    lines: each line with each product of its id, or alone. *)
Definition joined_lines (t : tables num) (orderId : Z)
    : list (order_item num * option (product num)) :=
  flat_map
    (fun oi =>
       match filter (fun p => p_id p =? oi_product_id oi) (products t) with
       | [] => [(oi, None)]
       | ps => map (fun p => (oi, Some p)) ps
       end)
    (lines_of t orderId).

Definition titles_of (rows : list (order_item num * option (product num)))
    : list string :=
  flat_map (fun row => match snd row with
                       | Some p => [p_title p]
                       | None => []
                       end) rows.

Definition group_concat (values : list string) : option string :=
  match values with
  | [] => None
  | _ => Some (String.concat "," values)
  end.

(** The group of one order ([GROUP BY o.id]; ids are the primary key). *)
Definition history_of (t : tables num) (o : order num) : history_row :=
  {| h_order := o;
     h_product_titles := group_concat (titles_of (joined_lines t (o_id o)));
     h_item_count := List.length (joined_lines t (o_id o)) |}.

(** [router.get('/history', ...)]; [by_created_at] is
    [ORDER BY o.created_at DESC]. *)
Definition get_history
    (by_created_at : list history_row -> list history_row)
    (err : bool) (userId : Z) (t : tables num) : answer (list history_row) :=
  if err then Refused 500 "Database error"
  else
    Served 200
      (by_created_at
         (map (history_of t)
              (filter (fun o => o_user_id o =? userId) (orders t)))).

(** A row of the sales query: [o.id], [o.total_amount], [oi.quantity],
    [oi.price], [p.title]. *)
Record sale : Type := {
  s_order_id : Z;
  s_total_amount : num;
  s_quantity : Z;
  s_price : num;
  s_title : string
}.

(** [FROM order_items oi JOIN orders o ON oi.order_id = o.id
     JOIN products p ON oi.product_id = p.id WHERE p.seller_id = ?] *)
Definition salesQuery (sellerId : Z) (t : tables num) : list sale :=
  flat_map
    (fun oi =>
       flat_map
         (fun o =>
            map (fun p =>
                   {| s_order_id := o_id o;
                      s_total_amount := o_total_amount o;
                      s_quantity := oi_quantity oi; s_price := oi_price oi;
                      s_title := p_title p |})
                (filter (fun p => (p_id p =? oi_product_id oi)
                                  && (p_seller_id p =? sellerId))
                        (products t)))
         (filter (fun o => o_id o =? oi_order_id oi) (orders t)))
    (order_items t).

(** [sales.reduce((sum, sale) => sum + (sale.price * sale.quantity), 0)] *)
Definition totalRevenue (sales : list sale) : num :=
  fold_left (fun sum s => nadd sum (nmul (s_price s) (s_quantity s)))
            sales nzero.

(** The body of [GET /sales/history]. *)
Record sales_page : Type := {
  sp_sales : list sale;
  sp_totalRevenue : num;
  sp_totalSales : nat
}.

(** [router.get('/sales/history', ...)] *)
Definition get_sales (by_created_at : list sale -> list sale) (err : bool)
    (sellerId : Z) (role : string) (t : tables num) : answer sales_page :=
  if negb (role =? "seller")%string && negb (role =? "admin")%string
  then Refused 403 "Only sellers can view sales history"
  else if err then Refused 500 "Database error"
  else
    let sales := by_created_at (salesQuery sellerId t) in
    Served 200 {| sp_sales := sales;
                  sp_totalRevenue := toFixed2 (totalRevenue sales);
                  sp_totalSales := List.length sales |}.

(** Two rows of the sales query taken from the same OrderLine and the
    same Order: they differ at most in the columns of the product. *)
Definition same_sale (s s' : sale) : Prop :=
  s_order_id s' = s_order_id s /\ s_total_amount s' = s_total_amount s /\
  s_quantity s' = s_quantity s /\ s_price s' = s_price s.

(** [ORDER BY o.created_at DESC] goes by a column of orders: two results
    whose rows differ in the columns of the product only come out in the
    same order. *)
Definition sorts_by_order (by_created_at : list sale -> list sale) : Prop :=
  forall l l',
    Forall2 same_sale l l' ->
    Forall2 same_sale (by_created_at l) (by_created_at l').

(** A cart row or an OrderLine references the product: with
    [PRAGMA foreign_keys = ON] the product cannot be deleted. *)
Definition referenced (productId : Z) (t : tables num) : bool :=
  existsb (fun c => c_product_id c =? productId) (cart t)
  || existsb (fun oi => oi_product_id oi =? productId) (order_items t).

(** [DELETE FROM products WHERE id = ?] *)
Definition delete_product_row (productId : Z) (t : tables num)
    : tables num :=
  {| products := filter (fun p => negb (p_id p =? productId)) (products t);
     cart := cart t; orders := orders t; order_items := order_items t;
     seq_cart := seq_cart t; seq_orders := seq_orders t;
     seq_order_items := seq_order_items t |}.

(** [router.delete('/:id', ...)] of products.js; [err_select] and
    [err_delete] are what the driver reports for the two statements, the
    second also failing on a foreign key. *)
Definition delete_product (err_select err_delete : bool) (userId : Z)
    (role : string) (productId : Z) (t : tables num)
    : answer string * tables num :=
  if err_select then (Refused 500 "Database error", t)
  else
    match productQuery productId t with
    | None => (Refused 404 "Product not found", t)
    | Some product =>
        if negb (p_seller_id product =? userId)
           && negb (role =? "admin")%string
        then (Refused 403 "You can only delete your own products", t)
        else if err_delete || referenced productId t
        then (Refused 500 "Failed to delete product", t)
        else (Served 200 "Product deleted successfully",
              delete_product_row productId t)
    end.

(** A request to any modelled route that writes. *)
Inductive request : Type :=
| Route (o : op num)
| DeleteProduct (err_select err_delete : bool) (userId : Z) (role : string)
    (productId : Z).

Definition serve (r : request) (w : world num) : world num :=
  match r with
  | Route o => run o w
  | DeleteProduct e1 e2 u role p =>
      {| db := snd (delete_product e1 e2 u role p (db w));
         journal := journal w; fault := fault w |}
  end.

Definition serve_all (rs : list request) (w : world num) : world num :=
  fold_left (fun w r => serve r w) rs w.

(** The user a cart or checkout request acts for. *)
Definition actor (o : op num) : option Z :=
  match o with
  | Add u _ _ | UpdateQuantity u _ _ | Remove u _ | Clear u
  | Checkout u _ _ _ => Some u
  | UpdateProduct _ _ _ _ => None
  end.

(** Cart ids are distinct and were handed out by the sequence. *)
Definition cart_ids_fresh (t : tables num) : Prop :=
  NoDup (map c_id (cart t)) /\
  forall c, In c (cart t) -> c_id c <= seq_cart t.

(** No user has two lines for one product. *)
Definition one_line_per_product (t : tables num) : Prop :=
  NoDup (map (fun c => (c_user_id c, c_product_id c)) (cart t)).

(** Every cart row and every OrderLine references a product of the
    catalog. *)
Definition references_resolve (t : tables num) : Prop :=
  (forall c, In c (cart t) ->
     exists p, In p (products t) /\ p_id p = c_product_id c) /\
  (forall l, In l (order_items t) ->
     exists p, In p (products t) /\ p_id p = oi_product_id l).

(** The user a request acts for. *)
Definition request_actor (r : request) : option Z :=
  match r with
  | Route o => actor o
  | DeleteProduct _ _ _ _ _ => None
  end.

(** What one request of user [u] can do to the cart table and its
    sequence. *)
Inductive cart_change (u : Z) (t : tables num)
    : list cart_row -> Z -> Prop :=
| CartSame : cart_change u t (cart t) (seq_cart t)
| CartAppended (pid q : Z) (p : product num) :
    productQuery pid t = Some p ->
    existingQuery u pid t = None ->
    cart_change u t
      (cart t ++ [{| c_id := seq_cart t + 1; c_user_id := u;
                     c_product_id := pid; c_quantity := q |}])
      (seq_cart t + 1)
| CartRequantified (line : cart_row) (q : Z) :
    In line (cart t) -> c_user_id line = u ->
    cart_change u t (map (requantify (c_id line) q) (cart t)) (seq_cart t)
| CartLineDeleted (line : cart_row) :
    In line (cart t) -> c_user_id line = u ->
    cart_change u t
      (filter (fun c => negb (c_id c =? c_id line)) (cart t)) (seq_cart t)
| CartCleared :
    cart_change u t
      (filter (fun c => negb (c_user_id c =? u)) (cart t)) (seq_cart t).

End Views.

Arguments cart_page : clear implicits.
Arguments history_row : clear implicits.
Arguments sale : clear implicits.
Arguments sales_page : clear implicits.
Arguments request : clear implicits.

(** ** routes/auth.js and the client's request header *)

(** [s.split(' ')] *)
Fixpoint split_space (s : string) : list string :=
  match s with
  | EmptyString => [EmptyString]
  | String c s' =>
      if Ascii.eqb c " "
      then EmptyString :: split_space s'
      else match split_space s' with
           | piece :: pieces => String c piece :: pieces
           | [] => [String c EmptyString]
           end
  end.

(** [authHeader && authHeader.split(' ')[1]] *)
Definition token_of (authHeader : option string) : option string :=
  match authHeader with
  | None => None
  | Some h => if (h =? "")%string then Some "" else nth_error (split_space h) 1
  end.

(** What [jwt.sign] put in the token: [{ userId, username, role }]. *)
Record payload : Type := {
  userId_of : Z;
  username_of : string;
  role_of : string
}.

(** A middleware answers or calls [next()] with [req.user] set. *)
Inductive gate : Type :=
| Reject (status : nat) (error : string)
| Next (user : payload).

(** [authenticateToken]; [verify token] is [jwt.verify(token, JWT_SECRET)],
    [None] when it reports an error. *)
Definition authenticateToken (verify : string -> option payload)
    (authHeader : option string) : gate :=
  let token := token_of authHeader in
  if falsy token then Reject 401 "Access token required"
  else match verify (str token) with
       | None => Reject 403 "Invalid or expired token"
       | Some user => Next user
       end.

(** [`Bearer ${authToken}`], the header [Utils.makeRequest] sends. *)
Definition authorization_header (authToken : string) : string :=
  String.append "Bearer " authToken.

(** No character of [s] is a space. *)
Definition spaceless (s : string) : bool :=
  forallb (fun c => negb (Ascii.eqb c " ")) (list_ascii_of_string s).

(** Sample data: the two sellers' view, an order of sorts and a toy
    verifier. *)
Definition newest_first {A : Type} (l : list A) : list A := rev l.

Definition user1 : payload :=
  {| userId_of := 3; username_of := "user1"; role_of := "user" |}.

Definition only_user1 (token : string) : option payload :=
  if (token =? "user1.token")%string then Some user1 else None.

(** The seller's other listing, on nobody's cart and never ordered. *)
Definition camera : product Z :=
  {| p_id := 6; p_title := "Vintage Camera"; p_price := 12000;
     p_seller_id := 2; p_status := "available" |}.

(** The shop once the seller has marked the chair sold by hand: user1's
    line for it is stale. *)
Definition shop_chair_gone : tables Z :=
  db (snd (update_product 2 "seller" 2
             {| title := "Antique Wooden Chair"; price := 7500;
                new_status := Some "sold" |} (start shop reliable))).

Definition shop_with_camera : tables Z :=
  {| products := [jacket; chair; camera];
     cart := [ {| c_id := 1; c_user_id := 3; c_product_id := 1;
                  c_quantity := 1 |} ];
     orders := []; order_items := [];
     seq_cart := 1; seq_orders := 0; seq_order_items := 0 |}.

(** * Proofs *)

Unset Implicit Arguments.

(** ** The monad and the driver *)

Ltac run_monad :=
  unfold query, write, bind, issue, commit, read, ret in *; cbn in *.

Section Driver.
Context {num : Type} {number : Number num}.

Lemma write_ok (s : stmt) (f : tables num -> tables num) (w : world num) :
  succeeds s w ->
  write s f w =
  (false, {| db := f (db w); journal := journal w ++ [s]; fault := fault w |}).
Proof.
  unfold succeeds; intros H. run_monad. now rewrite H.
Qed.

Lemma write_failed (s : stmt) (f : tables num -> tables num) (w : world num) :
  fault w (List.length (journal w)) s = true ->
  write s f w = (true, logged s w).
Proof.
  intros H. unfold logged. run_monad. now rewrite H.
Qed.

Lemma write_cases (s : stmt) (f : tables num -> tables num) (w : world num) :
  write s f w = (true, logged s w) \/
  write s f w =
  (false, {| db := f (db w); journal := journal w ++ [s]; fault := fault w |}).
Proof.
  destruct (fault w (List.length (journal w)) s) eqn:E.
  - left. now apply write_failed.
  - right. now apply write_ok.
Qed.

Lemma write_fault (s : stmt) (f : tables num -> tables num) (w : world num) :
  fault (snd (write s f w)) = fault w.
Proof.
  destruct (write_cases s f w) as [E | E]; now rewrite E.
Qed.

Lemma query_ok (A : Type) (s : stmt) (f : tables num -> A) (w : world num) :
  succeeds s w -> query s f w = (Some (f (db w)), logged s w).
Proof.
  unfold succeeds, logged; intros H. run_monad. now rewrite H.
Qed.

Lemma query_failed (A : Type) (s : stmt) (f : tables num -> A)
    (w : world num) :
  fault w (List.length (journal w)) s = true ->
  query s f w = (None, logged s w).
Proof.
  intros H. unfold logged. run_monad. now rewrite H.
Qed.

Lemma query_cases (A : Type) (s : stmt) (f : tables num -> A)
    (w : world num) :
  query s f w = (None, logged s w) \/
  query s f w = (Some (f (db w)), logged s w).
Proof.
  destruct (fault w (List.length (journal w)) s) eqn:E.
  - left. now apply query_failed.
  - right. now apply query_ok.
Qed.

End Driver.

(** ** Cart routes *)

Section CartProofs.
Context {num : Type} {number : Number num}.

(** The route [PUT /update/:itemId] itself rejects a quantity below 1
    with 400 "Valid quantity is required" and issues no statement: the
    removal is the cart page's doing. *)
Lemma update_below_one_rejected (w : world num) (userId itemId q : Z) :
  q < 1 ->
  update_item userId itemId (Some q) w = (invalid_quantity, w).
Proof.
  intros Hq. unfold update_item; cbn.
  assert (E : (q <? 1) = true) by now apply Z.ltb_lt.
  rewrite E, orb_true_r. reflexivity.
Qed.

Lemma remove_item_cases (w : world num) (userId itemId : Z) :
  let s := SelCartItem itemId userId in
  (fault w (List.length (journal w)) s = true /\
   remove_item userId itemId w =
   ({| status := 500; json := Error "Database error" |}, logged s w)) \/
  (succeeds s w /\ cartItemQuery itemId userId (db w) = None /\
   remove_item userId itemId w = (cart_item_not_found, logged s w)) \/
  (succeeds s w /\ cartItemQuery itemId userId (db w) <> None /\
   fault w (S (List.length (journal w))) (DelCartItem itemId) = true /\
   remove_item userId itemId w =
   ({| status := 500; json := Error "Failed to remove cart item" |},
    logged (DelCartItem itemId) (logged s w))) \/
  (succeeds s w /\ cartItemQuery itemId userId (db w) <> None /\
   remove_item userId itemId w =
   ({| status := 200;
       json := Message "Item removed from cart successfully" |},
    {| db := delete_cart_item itemId (db w);
       journal := (journal w ++ [s]) ++ [DelCartItem itemId];
       fault := fault w |})).
Proof.
  intros s. unfold remove_item, bind.
  destruct (fault w (List.length (journal w)) s) eqn:E.
  - left. split; [reflexivity|]. subst s. now rewrite query_failed by exact E.
  - right. subst s. rewrite query_ok by exact E.
    destruct (cartItemQuery itemId userId (db w)) eqn:Q.
    + right.
      assert (L : List.length (journal (logged (SelCartItem itemId userId) w))
                  = S (List.length (journal w))).
      { cbn. rewrite length_app. cbn. lia. }
      destruct (fault w (S (List.length (journal w))) (DelCartItem itemId))
        eqn:F.
      * left. repeat split; try easy.
        rewrite write_failed; [reflexivity|]. now rewrite L.
      * right. repeat split; try easy.
        rewrite write_ok; [reflexivity|]. unfold succeeds. now rewrite L.
    + left. repeat split; easy.
Qed.

Lemma find_filter_none (A : Type) (p q : A -> bool) (l : list A) :
  (forall x, p x = true -> q x = false) ->
  find p (filter q l) = None.
Proof.
  intros H. induction l as [|a l IH]; cbn; [reflexivity|].
  destruct (q a) eqn:Q; [|exact IH]. cbn.
  destruct (p a) eqn:P; [|exact IH].
  apply H in P. congruence.
Qed.

Lemma filter_all (A : Type) (q : A -> bool) (l : list A) :
  (forall x, In x l -> q x = true) -> filter q l = l.
Proof.
  induction l as [|a l IH]; cbn; intros H; [reflexivity|].
  rewrite (H a (or_introl eq_refl)). f_equal. apply IH. auto.
Qed.

Lemma tables_eta (t : tables num) : set_cart (fun c => c) t = t.
Proof. now destruct t. Qed.

(** C8: [CartPage.updateQuantity] with a quantity below 1 is the removal
    of the line: it does what [CartPage.removeItem] does and sends no
    update. For a line of the caller, the two statements of the removal
    going through, it is not an error - the route answers 200 and the
    page reports "Item removed from cart" - and the line no longer exists
    afterwards: it is deleted from the cart table, where no line carries
    its id, and every other line is still there. *)
Theorem updateQuantity_below_one_removes (w : world num)
    (userId itemId : Z) (newQuantity : js_quantity) (line : cart_row) :
  below_one newQuantity = true ->
  CartPage_updateQuantity userId itemId newQuantity w =
    (Some (fst (CartPage_removeItem userId itemId w)),
     snd (CartPage_removeItem userId itemId w)) /\
  (cartItemQuery itemId userId (db w) = Some line ->
   succeeds (SelCartItem itemId userId) w ->
   succeeds (DelCartItem itemId) (logged (SelCartItem itemId userId) w) ->
   let w' := snd (CartPage_updateQuantity userId itemId newQuantity w) in
   status (fst (remove_item userId itemId w)) = 200%nat /\
   fst (CartPage_updateQuantity userId itemId newQuantity w) =
     Some {| message := "Item removed from cart"; type_ := "success" |} /\
   db w' = delete_cart_item itemId (db w) /\
   cartItemQuery itemId userId (db w') = None /\
   find (fun c => c_id c =? itemId) (cart (db w')) = None /\
   forall c, In c (cart (db w)) -> c_id c <> itemId -> In c (cart (db w'))).
Proof.
  intros B.
  assert (U : CartPage_updateQuantity userId itemId newQuantity w =
              (Some (fst (CartPage_removeItem userId itemId w)),
               snd (CartPage_removeItem userId itemId w))).
  { unfold CartPage_updateQuantity. rewrite B. unfold bind at 1.
    now destruct (CartPage_removeItem userId itemId w). }
  split; [exact U|]. intros Q S1 S2 w'.
  assert (E : remove_item userId itemId w =
              ({| status := 200;
                  json := Message "Item removed from cart successfully" |},
               {| db := delete_cart_item itemId (db w);
                  journal := (journal w ++ [SelCartItem itemId userId])
                             ++ [DelCartItem itemId];
                  fault := fault w |})).
  { destruct (remove_item_cases w userId itemId)
      as [[F _] | [(_ & N & _) | [(_ & _ & F & _) | (_ & _ & E)]]].
    - unfold succeeds in S1. congruence.
    - congruence.
    - unfold succeeds in S2. cbn in S2. rewrite length_app in S2.
      cbn in S2. rewrite Nat.add_1_r in S2. congruence.
    - exact E. }
  assert (D : db w' = delete_cart_item itemId (db w)).
  { unfold w'. rewrite U. unfold CartPage_removeItem, bind.
    rewrite E. reflexivity. }
  split; [now rewrite E|]. split.
  { rewrite U. unfold CartPage_removeItem, bind. rewrite E. reflexivity. }
  split; [exact D|]. rewrite D. split; [|split].
  - unfold cartItemQuery. cbn. apply find_filter_none. intros x Hx.
    apply andb_true_iff in Hx as [Hx _]. now rewrite Hx.
  - cbn. apply find_filter_none. intros x Hx. now rewrite Hx.
  - intros c I N. cbn. apply filter_In. split; [exact I|].
    apply negb_true_iff. now apply Z.eqb_neq.
Qed.

(** C9, as the code has it: [DELETE /remove/:itemId] for a line the caller
    does not have answers 404 "Cart item not found" and leaves the tables
    alone, so a removal repeated after a successful one is an error;
    [DELETE /clear] answers 200 whenever its DELETE does not fail, no line
    of the caller is left, and a cart that had none is unchanged. *)
Theorem remove_missing_not_found_clear_succeeds (w : world num)
    (userId itemId : Z) :
  (succeeds (SelCartItem itemId userId) w ->
   cartItemQuery itemId userId (db w) = None ->
   fst (remove_item userId itemId w) = cart_item_not_found /\
   db (snd (remove_item userId itemId w)) = db w) /\
  (status (fst (remove_item userId itemId w)) = 200%nat ->
   forall w', w' = snd (remove_item userId itemId w) ->
   succeeds (SelCartItem itemId userId) w' ->
   fst (remove_item userId itemId w') = cart_item_not_found) /\
  (succeeds (DelCartUser userId) w ->
   fst (clear userId w) =
     {| status := 200; json := Message "Cart cleared successfully" |} /\
   filter (fun c => c_user_id c =? userId) (cart (db (snd (clear userId w))))
     = [] /\
   (filter (fun c => c_user_id c =? userId) (cart (db w)) = [] ->
    db (snd (clear userId w)) = db w)).
Proof.
  split; [|split].
  - intros Hs Hq.
    destruct (remove_item_cases w userId itemId)
      as [[F _] | [(_ & _ & E) | [(_ & N & _) | (_ & N & _)]]].
    + unfold succeeds in Hs. congruence.
    + rewrite E. now split.
    + congruence.
    + congruence.
  - intros H200 w' -> Hs.
    destruct (remove_item_cases w userId itemId)
      as [[_ E] | [(_ & _ & E) | [(_ & _ & _ & E) | (_ & _ & E)]]];
      rewrite E in H200; cbn in H200; try discriminate.
    rewrite E in Hs |- *. cbn [snd] in *.
    match goal with |- fst (remove_item _ _ ?W) = _ => set (w1 := W) in * end.
    destruct (remove_item_cases w1 userId itemId)
      as [[F _] | [(_ & _ & E1) | [(_ & N & _) | (_ & N & _)]]].
    + unfold succeeds in Hs. congruence.
    + now rewrite E1.
    + exfalso. apply N. subst w1. unfold cartItemQuery; cbn.
      apply find_filter_none. intros x Hx.
      apply andb_true_iff in Hx as [Hx _]. now rewrite Hx.
    + exfalso. apply N. subst w1. unfold cartItemQuery; cbn.
      apply find_filter_none. intros x Hx.
      apply andb_true_iff in Hx as [Hx _]. now rewrite Hx.
  - intros Hs. unfold clear, bind. rewrite write_ok by exact Hs. cbn.
    split; [reflexivity|]. split.
    + induction (cart (db w)) as [|c l IH]; cbn; [reflexivity|].
      destruct (c_user_id c =? userId) eqn:U; cbn; [exact IH|].
      now rewrite U.
    + intros Hnone. unfold delete_cart_user.
      rewrite <- (tables_eta (db w)) at 2. unfold set_cart. f_equal.
      apply filter_all. intros x Hx.
      destruct (c_user_id x =? userId) eqn:U; [|reflexivity].
      assert (In x (filter (fun c => c_user_id c =? userId) (cart (db w))))
        by (apply filter_In; now split).
      rewrite Hnone in H. destruct H.
Qed.

End CartProofs.

(** ** Checkout, step by step *)

Arguments orderNumber : simpl never.

Section CheckoutProofs.
Context {num : Type} {number : Number num}.

Lemma insert_items_run (orderId : Z) (finish : M num (response num))
    (total : nat) (items : list (cart_item num)) :
  forall (k : nat) (w : world num),
    items <> [] -> (k + List.length items = total)%nat ->
    insert_items orderId items k total finish w =
    (Some (fst (finish (write_items orderId items w))),
     snd (finish (write_items orderId items w))).
Proof.
  induction items as [|item rest IH]; intros k w Hne Hlen; [congruence|].
  cbn [insert_items]. unfold bind at 1.
  unfold write_items; cbn [fold_left]. fold (write_items orderId rest).
  destruct (write (InsOrderItem orderId (ci_product_id item)
                     (ci_quantity item))
                  (add_order_item orderId item) w) as [err w1].
  cbn [snd].
  destruct rest as [|item' rest'].
  - cbn in Hlen. replace (S k) with total by lia.
    rewrite Nat.eqb_refl. unfold bind, ret. cbn.
    now destruct (finish w1).
  - assert (N : Nat.eqb (S k) total = false).
    { apply Nat.eqb_neq. cbn in Hlen. lia. }
    rewrite N. apply IH; [congruence | cbn in *; lia].
Qed.

Lemma finalize_run (userId orderId : Z) (number_ : string)
    (b : checkout_body) (items : list (cart_item num)) (w : world num) :
  finalize userId orderId number_ b items w =
  (receipt orderId number_ b items, finalized userId items w).
Proof.
  unfold finalize, finalized, receipt, bind at 1.
  destruct (write (UpdProductsSold (map (@ci_product_id num) items))
              (mark_sold (map (@ci_product_id num) items)) w) as [e1 w1].
  unfold bind at 1. cbn [snd].
  destruct (write (DelCartUser userId) (delete_cart_user userId) w1)
    as [e2 w2].
  reflexivity.
Qed.

Lemma checkout_steps (userId : Z) (b : checkout_body) (now : N)
    (random : list nat) (w : world num) (r : option (response num))
    (w' : world num) :
  checkout userId b now random w = (r, w') ->
  checkout_outcome userId b now random w r w'.
Proof.
  unfold checkout.
  destruct (falsy (fullName b) || falsy (email b) || falsy (phone b)
            || falsy (deliveryAddress b)) eqn:V.
  - cbn. intros [= <- <-]. apply Incomplete. unfold complete. now rewrite V.
  - assert (C : complete b = true) by (unfold complete; now rewrite V).
    unfold bind at 1.
    destruct (fault w (List.length (journal w)) (SelCartAvailable userId))
      eqn:F.
    + rewrite query_failed by exact F. cbn. intros [= <- <-].
      now apply CartUnread.
    + rewrite query_ok by exact F.
      destruct (Nat.eqb (List.length (cartQuery (db w) userId)) 0) eqn:Q.
      * apply Nat.eqb_eq, length_zero_iff_nil in Q.
        cbn. intros [= <- <-]. apply CartEmpty; assumption.
      * assert (Hne : cartQuery (db w) userId <> []).
        { intros E. rewrite E in Q. discriminate. }
        clear Q.
        assert (L : List.length (journal (logged (SelCartAvailable userId) w))
                    = S (List.length (journal w))).
        { cbn. rewrite length_app. cbn. lia. }
        unfold bind at 1. unfold insert_order, bind at 1.
        unfold issue at 1. unfold bind at 1. unfold read at 1.
        cbn [fst snd db journal fault logged] in *.
        rewrite L. fold (number_taken (orderNumber now random) (db w)).
        destruct (fault w (S (List.length (journal w)))
                    (InsOrder userId (orderNumber now random))
                  || number_taken (orderNumber now random) (db w)) eqn:T.
        -- cbn. intros [= <- <-]. apply OrderRefused; assumption.
        -- unfold bind, read, commit, ret. cbn [fst snd db journal fault].
           rewrite insert_items_run by (auto; lia).
           rewrite finalize_run. cbn [fst snd].
           intros [= <- <-].
           apply OrderPlaced; assumption.
Qed.

Lemma checkout_run (userId : Z) (b : checkout_body) (now : N)
    (random : list nat) (w : world num) :
  checkout_outcome userId b now random w
    (fst (checkout userId b now random w))
    (snd (checkout userId b now random w)).
Proof.
  apply checkout_steps. now destruct (checkout userId b now random w).
Qed.

(** [POST /checkout] always answers. *)
Lemma checkout_answers (userId : Z) (b : checkout_body) (now : N)
    (random : list nat) (w : world num) :
  exists r, fst (checkout userId b now random w) = Some r.
Proof.
  destruct (checkout_run userId b now random w); eauto.
Qed.

End CheckoutProofs.

(** ** What checkout writes *)

Section Writes.
Context {num : Type} {number : Number num}.

Lemma write_items_cons (orderId : Z) (item : cart_item num)
    (rest : list (cart_item num)) (w : world num) :
  write_items orderId (item :: rest) w =
  write_items orderId rest
    (snd (write (InsOrderItem orderId (ci_product_id item)
                   (ci_quantity item))
                (add_order_item orderId item) w)).
Proof. reflexivity. Qed.

Lemma write_items_fault (orderId : Z) (items : list (cart_item num)) :
  forall w, fault (write_items orderId items w) = fault w.
Proof.
  induction items as [|item rest IH]; intros w; [reflexivity|].
  rewrite write_items_cons.
  rewrite IH. apply write_fault.
Qed.

(** The inserts touch [order_items] and its sequence only. *)
Lemma write_items_frame (orderId : Z) (items : list (cart_item num)) :
  forall w,
    products (db (write_items orderId items w)) = products (db w) /\
    cart (db (write_items orderId items w)) = cart (db w) /\
    orders (db (write_items orderId items w)) = orders (db w).
Proof.
  induction items as [|item rest IH]; intros w; [now repeat split|].
  rewrite write_items_cons.
  destruct (write_cases (InsOrderItem orderId (ci_product_id item)
                           (ci_quantity item))
                        (add_order_item orderId item) w) as [E | E];
    rewrite E; cbn [snd];
    destruct (IH (snd (write (InsOrderItem orderId (ci_product_id item)
                                (ci_quantity item))
                             (add_order_item orderId item) w)))
      as (P & C & O); rewrite E in P, C, O; cbn [snd] in P, C, O;
    rewrite P, C, O; now repeat split.
Qed.

(** Earlier OrderLines stay. *)
Lemma write_items_keeps (orderId : Z) (items : list (cart_item num)) :
  forall w l,
    In l (order_items (db w)) ->
    In l (order_items (db (write_items orderId items w))).
Proof.
  induction items as [|item rest IH]; intros w l H; [exact H|].
  rewrite write_items_cons.
  apply IH.
  destruct (write_cases (InsOrderItem orderId (ci_product_id item)
                           (ci_quantity item))
                        (add_order_item orderId item) w) as [E | E];
    rewrite E; cbn; [exact H|].
  apply in_or_app. now left.
Qed.

(** Whatever fails, a new OrderLine belongs to the new order and copies
    product, quantity and price of a cart item. *)
Lemma write_items_new (orderId : Z) (items : list (cart_item num)) :
  forall w l,
    In l (order_items (db (write_items orderId items w))) ->
    In l (order_items (db w)) \/
    (oi_order_id l = orderId /\
     exists item, In item items /\ oi_product_id l = ci_product_id item /\
       oi_quantity l = ci_quantity item /\ oi_price l = ci_price item).
Proof.
  induction items as [|item rest IH]; intros w l H; [now left|].
  rewrite write_items_cons in H.
  apply IH in H. destruct H as [H | (Ho & i & Hi & Hp)].
  - destruct (write_cases (InsOrderItem orderId (ci_product_id item)
                             (ci_quantity item))
                          (add_order_item orderId item) w) as [E | E];
      rewrite E in H; cbn in H; [now left|].
    apply in_app_or in H. destruct H as [H | [<- | []]]; [now left|].
    right. cbn. split; [reflexivity|]. exists item. cbn. auto.
  - right. split; [exact Ho|]. exists i. cbn. auto.
Qed.

(** When no insert fails, the new OrderLines are one per cart item, in
    order. *)
Lemma write_items_all (orderId : Z) (items : list (cart_item num)) :
  forall w,
    line_inserts_reliable (fault w) ->
    order_items (db (write_items orderId items w)) =
    order_items (db w) ++ new_lines orderId (seq_order_items (db w)) items.
Proof.
  induction items as [|item rest IH]; intros w R.
  - cbn. now rewrite app_nil_r.
  - rewrite write_items_cons.
    rewrite write_ok by apply R. cbn [snd].
    rewrite IH by exact R. cbn. now rewrite <- app_assoc.
Qed.

Lemma new_lines_order (orderId : Z) (items : list (cart_item num)) :
  forall seq,
    filter (fun oi => oi_order_id oi =? orderId)
           (new_lines orderId seq items) = new_lines orderId seq items.
Proof.
  induction items as [|item rest IH]; intros seq; [reflexivity|].
  cbn. rewrite Z.eqb_refl. f_equal. apply IH.
Qed.

Lemma new_lines_total_from (orderId : Z) (items : list (cart_item num)) :
  forall seq acc,
    fold_left (fun sum l => nadd sum (nmul (oi_price l) (oi_quantity l)))
              (new_lines orderId seq items) acc =
    fold_left (fun sum item =>
                 nadd sum (nmul (ci_price item) (ci_quantity item)))
              items acc.
Proof.
  induction items as [|item rest IH]; intros seq acc; [reflexivity|].
  cbn. apply IH.
Qed.


(** [finalize] touches [products] and [cart] only. *)
Lemma finalized_frame (userId : Z) (items : list (cart_item num))
    (w : world num) :
  orders (db (finalized userId items w)) = orders (db w) /\
  order_items (db (finalized userId items w)) = order_items (db w) /\
  (products (db (finalized userId items w)) = products (db w) \/
   products (db (finalized userId items w)) =
   map (sell (map (@ci_product_id num) items)) (products (db w))).
Proof.
  unfold finalized.
  destruct (write_cases (UpdProductsSold (map (@ci_product_id num) items))
              (mark_sold (map (@ci_product_id num) items)) w) as [E | E];
    rewrite E; cbn [snd];
    match goal with
    | |- context [write ?s ?f ?w1] =>
        destruct (write_cases s f w1) as [E' | E']; rewrite E'
    end; cbn; auto.
Qed.

Lemma finalized_sold (userId : Z) (items : list (cart_item num))
    (w : world num) :
  sold_update_reliable (fault w) ->
  products (db (finalized userId items w)) =
  map (sell (map (@ci_product_id num) items)) (products (db w)).
Proof.
  intros R. unfold finalized.
  rewrite (write_ok (UpdProductsSold (map (@ci_product_id num) items)))
    by apply R.
  cbn [snd].
  match goal with
  | |- context [write ?s ?f ?w1] =>
      destruct (write_cases s f w1) as [E' | E']; rewrite E'
  end; reflexivity.
Qed.

(** A row of the cart query copies the price of an available product. *)
Lemma cartQuery_product (t : tables num) (userId : Z) (item : cart_item num) :
  In item (cartQuery t userId) ->
  exists p, In p (products t) /\ p_id p = ci_product_id item /\
            available p = true /\ ci_price item = p_price p.
Proof.
  unfold cartQuery. intros H. apply in_flat_map in H.
  destruct H as (c & _ & H). unfold join_cart in H.
  apply in_map_iff in H. destruct H as (p & <- & H).
  apply filter_In in H. destruct H as [Hp H].
  apply andb_true_iff in H. destruct H as [Hid Hav].
  exists p. cbn. repeat split; try assumption. now apply Z.eqb_eq.
Qed.

Lemma has_status_iff (s : string) (t : tables num) (pid : Z) :
  has_status s t pid = true <->
  exists p, In p (products t) /\ p_id p = pid /\ p_status p = s.
Proof.
  unfold has_status. rewrite existsb_exists. split.
  - intros (p & Hp & H). apply andb_true_iff in H. destruct H as [Hi Hs].
    exists p. repeat split; [assumption | now apply Z.eqb_eq
                             | now apply String.eqb_eq].
  - intros (p & Hp & Hi & Hs). exists p. split; [assumption|].
    apply andb_true_iff. split; [now apply Z.eqb_eq | now apply String.eqb_eq].
Qed.

Lemma cartQuery_available (t : tables num) (userId : Z)
    (item : cart_item num) :
  In item (cartQuery t userId) -> is_available t (ci_product_id item) = true.
Proof.
  intros H. apply cartQuery_product in H. destruct H as (p & Hp & Hi & Ha & _).
  apply has_status_iff. exists p. repeat split; try assumption.
  now apply String.eqb_eq.
Qed.

Lemma mem_iff (x : Z) (l : list Z) : mem x l = true <-> In x l.
Proof.
  unfold mem. rewrite existsb_exists. split.
  - intros (y & Hy & E). apply Z.eqb_eq in E. now subst.
  - intros H. exists x. split; [assumption | apply Z.eqb_refl].
Qed.

End Writes.

(** ** Checkout and order detail *)

Section OrderProofs.
Context {num : Type} {number : Number num}.

(** C5: a checkout whose fullName, email, phone or deliveryAddress is
    missing (or empty) is answered with the 400 validation error; the
    world is returned as it was, so no statement - no cart or catalog
    read - was issued and no table changed. *)
Theorem checkout_missing_field (w : world num) (userId : Z)
    (b : checkout_body) (now : N) (random : list nat) :
  falsy (fullName b) = true \/ falsy (email b) = true \/
  falsy (phone b) = true \/ falsy (deliveryAddress b) = true ->
  fst (checkout userId b now random w) = Some validation_error /\
  journal (snd (checkout userId b now random w)) = journal w /\
  db (snd (checkout userId b now random w)) = db w /\
  snd (checkout userId b now random w) = w.
Proof.
  intros H.
  assert (V : falsy (fullName b) || falsy (email b) || falsy (phone b)
              || falsy (deliveryAddress b) = true).
  { destruct H as [H | [H | [H | H]]]; rewrite H;
      repeat rewrite orb_true_r; reflexivity. }
  unfold checkout. rewrite V. cbn. repeat split.
Qed.


(** C4: a checkout whose cart, filtered to available products, is empty
    - no line, or only lines of unavailable products - persists no Order:
    no table changes; and, the four required fields being given (a body
    without them is answered by the validation of C5 before the cart is
    read) and the cart query going through, it is answered 400 "Cart is
    empty". *)
Theorem checkout_empty_cart (w : world num) (userId : Z)
    (b : checkout_body) (now : N) (random : list nat) :
  cartQuery (db w) userId = [] ->
  db (snd (checkout userId b now random w)) = db w /\
  (complete b = true -> succeeds (SelCartAvailable userId) w ->
   fst (checkout userId b now random w) = Some empty_cart).
Proof.
  intros Q.
  destruct (checkout_run userId b now random w);
    try (split; [reflexivity|]; intros C S; unfold succeeds in *; congruence);
    congruence.
Qed.

(** When no OrderLine insert fails and no earlier OrderLine carries the
    id of the new order, the total stored on the Order is the sum over
    exactly its persisted OrderLines, and the receipt carries that sum
    after [toFixed(2)]. *)
Lemma checkout_total_of_lines (w : world num) (userId : Z)
    (b : checkout_body) (now : N) (random : list nat) :
  line_inserts_reliable (fault w) ->
  lines_of (db w) (seq_orders (db w) + 1) = [] ->
  forall m orderId n total name address count,
    fst (checkout userId b now random w) =
    Some {| status := 201;
            json := Receipt m orderId n total name address count |} ->
    let t' := db (snd (checkout userId b now random w)) in
    total = toFixed2 (lines_total (lines_of t' orderId)) /\
    exists o, In o (orders t') /\ o_id o = orderId /\
              o_total_amount o = lines_total (lines_of t' orderId).
Proof.
  intros R Hfresh m orderId n total name address count.
  destruct (checkout_run userId b now random w); try discriminate.
  unfold receipt. intros [= <- <- <- <- <- <- <-]. cbn zeta.
  set (items := cartQuery (db w) userId) in *.
  set (oid := seq_orders (db w) + 1) in *.
  set (w2 := order_placed userId b (orderNumber now random) items w).
  destruct (finalized_frame userId items (write_items oid items w2))
    as (Ho & Hi & _).
  destruct (write_items_frame oid items w2) as (_ & _ & Ho2).
  assert (L : lines_total (lines_of (db (finalized userId items
                (write_items oid items w2))) oid) = totalAmount items).
  { unfold lines_of, lines_total. rewrite Hi.
    rewrite write_items_all by exact R. rewrite filter_app.
    change (filter (fun oi => oi_order_id oi =? oid) (order_items (db w2)))
      with (lines_of (db w) oid).
    rewrite Hfresh. cbn [app].
    rewrite new_lines_order. apply new_lines_total_from. }
  split; [now rewrite L|].
  exists (new_order userId b (orderNumber now random) items oid).
  rewrite Ho, Ho2, L. cbn. split; [|now split].
  apply in_or_app. right. now left.
Qed.


(** [PUT /:id] rewrites rows of [products] only, and only those of the
    product named. *)
Lemma update_product_frame (w : world num) (userId : Z) (role : string)
    (productId : Z) (b : product_body num) :
  let w' := snd (update_product userId role productId b w) in
  fault w' = fault w /\
  orders (db w') = orders (db w) /\
  order_items (db w') = order_items (db w) /\
  (products (db w') = products (db w) \/
   products (db w') =
   map (rewrite_product productId (title b) (price b)
          (status_or_available (new_status b))) (products (db w))).
Proof.
  cbn zeta. unfold update_product, bind.
  destruct (query_cases _ (SelProduct productId) (productQuery productId) w)
    as [E | E]; rewrite E; [cbn; auto|].
  destruct (productQuery productId (db w)) as [product|]; [|cbn; auto].
  destruct (negb (p_seller_id product =? userId)
            && negb (role =? "admin")%string); [cbn; auto|].
  match goal with
  | |- context [write ?s ?f ?w1] =>
      destruct (write_cases s f w1) as [E' | E']; rewrite E'
  end; cbn; auto.
Qed.

(** Only an update answered 200 rewrites a row. *)
Lemma update_product_written (w : world num) (userId : Z) (role : string)
    (productId : Z) (b : product_body num) :
  products (db (snd (update_product userId role productId b w)))
    = products (db w) \/
  (status (fst (update_product userId role productId b w)) = 200%nat /\
   products (db (snd (update_product userId role productId b w))) =
   map (rewrite_product productId (title b) (price b)
          (status_or_available (new_status b))) (products (db w))).
Proof.
  unfold update_product, bind.
  destruct (query_cases _ (SelProduct productId) (productQuery productId) w)
    as [E | E]; rewrite E; [cbn; auto|].
  destruct (productQuery productId (db w)) as [product|]; [|cbn; auto].
  destruct (negb (p_seller_id product =? userId)
            && negb (role =? "admin")%string); [cbn; auto|].
  match goal with
  | |- context [write ?s ?f ?w1] =>
      destruct (write_cases s f w1) as [E' | E']; rewrite E'
  end; cbn; auto.
Qed.

(** C6: a line written by checkout copies the price of an available
    product as the catalog had it at that moment; and no product update,
    whether it is refused, fails or goes through, touches an Order, an
    OrderLine, or the sum over the lines of an order. *)
Theorem order_prices_frozen :
  (forall (w : world num) userId b now random l,
     In l (order_items (db (snd (checkout userId b now random w)))) ->
     In l (order_items (db w)) \/
     exists p, In p (products (db w)) /\ p_id p = oi_product_id l /\
               available p = true /\ oi_price l = p_price p) /\
  (forall (w : world num) userId role productId b,
     let w' := snd (update_product userId role productId b w) in
     orders (db w') = orders (db w) /\
     order_items (db w') = order_items (db w) /\
     forall orderId,
       lines_of (db w') orderId = lines_of (db w) orderId /\
       lines_total (lines_of (db w') orderId) =
       lines_total (lines_of (db w) orderId)).
Proof.
  split.
  - intros w userId b now random l H.
    destruct (checkout_run userId b now random w); try (now left).
    destruct (finalized_frame userId (cartQuery (db w) userId)
                (write_items (seq_orders (db w) + 1) (cartQuery (db w) userId)
                   (order_placed userId b (orderNumber now random)
                      (cartQuery (db w) userId) w))) as (_ & Hi & _).
    rewrite Hi in H. apply write_items_new in H.
    destruct H as [H | (_ & item & Hin & Hp & _ & Hpr)]; [now left|].
    right. apply cartQuery_product in Hin.
    destruct Hin as (p & Hp1 & Hp2 & Hp3 & Hp4).
    exists p. repeat split; congruence.
  - intros w userId role productId b w'.
    destruct (update_product_frame w userId role productId b)
      as (_ & E1 & E2 & _).
    fold w' in E1, E2. repeat split; try assumption;
      unfold lines_of; now rewrite E2.
Qed.

Lemma find_unique (f : order num -> bool) (l : list (order num))
    (o : order num) :
  NoDup (map (@o_id num) l) -> In o l -> f o = true ->
  (forall o', In o' l -> f o' = true -> o_id o' = o_id o) ->
  find f l = Some o.
Proof.
  induction l as [|a l IH]; intros ND Hin Hf Hid; [destruct Hin|].
  cbn. inversion ND as [|? ? Hn ND']; subst.
  destruct (f a) eqn:Fa.
  - destruct Hin as [-> | Hin]; [reflexivity|].
    exfalso. apply Hn. rewrite (Hid a (or_introl eq_refl) Fa).
    now apply in_map.
  - destruct Hin as [-> | Hin]; [congruence|].
    apply IH; auto. intros o' H1 H2. apply Hid; [now right | assumption].
Qed.

(** C10: [GET /:orderId] discloses an order only to its owner. An answer
    that carries an order carries one of the table with the requested id
    and the caller as owner; when both queries go through, the order with
    that id owned by the caller is the one returned (ids are the primary
    key); and when no order with that id is owned by the caller - there is
    none, or it is someone else's - the answer is never 200, and is the
    same 404 "Order not found" whenever the query goes through. *)
Theorem order_detail_owner_scoped (w : world num) (userId orderId : Z) :
  let r := fst (order_detail userId orderId w) in
  (forall o items, json r = OrderDetail o items ->
     status r = 200%nat /\ In o (orders (db w)) /\
     o_id o = orderId /\ o_user_id o = userId) /\
  (forall o,
     NoDup (map (@o_id num) (orders (db w))) ->
     succeeds (SelOrder orderId userId) w ->
     succeeds (SelOrderItems orderId) (logged (SelOrder orderId userId) w) ->
     In o (orders (db w)) -> o_id o = orderId -> o_user_id o = userId ->
     r = {| status := 200;
            json := OrderDetail o (itemsQuery orderId (db w)) |}) /\
  ((forall o, In o (orders (db w)) -> o_id o = orderId ->
              o_user_id o <> userId) ->
   status r <> 200%nat /\
   (succeeds (SelOrder orderId userId) w -> r = order_not_found)).
Proof.
  intros r. subst r. unfold order_detail, bind.
  destruct (query_cases _ (SelOrder orderId userId)
              (orderQuery orderId userId) w) as [E | E]; rewrite E.
  - cbn. split; [|split].
    + discriminate.
    + intros o _ S. unfold succeeds in S.
      assert (F : query (SelOrder orderId userId)
                    (orderQuery orderId userId) w
                  = (Some (orderQuery orderId userId (db w)),
                     logged (SelOrder orderId userId) w))
        by now apply query_ok.
      congruence.
    + intros _. split; [discriminate|]. intros S.
      assert (F : query (SelOrder orderId userId)
                    (orderQuery orderId userId) w
                  = (Some (orderQuery orderId userId (db w)),
                     logged (SelOrder orderId userId) w))
        by now apply query_ok.
      congruence.
  - destruct (orderQuery orderId userId (db w)) as [o0|] eqn:Q.
    + apply find_some in Q. destruct Q as [Qin Qf].
      apply andb_true_iff in Qf. destruct Qf as [Qi Qu].
      apply Z.eqb_eq in Qi, Qu.
      assert (Q : orderQuery orderId userId (db w) = Some o0 -> True) by auto.
      destruct (query_cases _ (SelOrderItems orderId) (itemsQuery orderId)
                  (logged (SelOrder orderId userId) w)) as [E2 | E2];
        rewrite E2; cbn; (split; [|split]).
      * discriminate.
      * intros o _ _ S2. rewrite query_ok in E2 by exact S2. discriminate.
      * intros H. exfalso. now apply (H o0).
      * intros o items [= <- <-]. auto.
      * intros o ND _ _ Hin Hid Hu. f_equal. f_equal.
        assert (F : orderQuery orderId userId (db w) = Some o).
        { unfold orderQuery. apply find_unique; auto.
          - apply andb_true_iff. split; now apply Z.eqb_eq.
          - intros o' _ H'. apply andb_true_iff in H'. destruct H' as [H' _].
            apply Z.eqb_eq in H'. congruence. }
        assert (F0 : orderQuery orderId userId (db w) = Some o0).
        { unfold orderQuery. apply find_unique; auto.
          - apply andb_true_iff. split; now apply Z.eqb_eq.
          - intros o' _ H'. apply andb_true_iff in H'. destruct H' as [H' _].
            apply Z.eqb_eq in H'. congruence. }
        congruence.
      * intros H. exfalso. now apply (H o0).
    + cbn. split; [|split].
      * discriminate.
      * intros o _ _ _ Hin Hid Hu. exfalso.
        unfold orderQuery in Q.
        apply (find_none _ _ Q) in Hin.
        rewrite Hid, Hu, !Z.eqb_refl in Hin. discriminate.
      * intros _. split; [discriminate | reflexivity].
Qed.

End OrderProofs.

(** ** Sequences of requests *)

Ltac split_handler :=
  repeat match goal with
  | |- context [query ?s ?f ?w] =>
      let E := fresh "E" in
      destruct (query_cases _ s f w) as [E | E]; rewrite E; clear E
  | |- context [write ?s ?f ?w] =>
      let E := fresh "E" in
      destruct (write_cases s f w) as [E | E]; rewrite E; clear E
  | |- context [match ?x with _ => _ end] => destruct x
  end.

Section Traces.
Context {num : Type} {number : Number num}.

(** The cart routes leave the catalog and the orders alone. *)
Lemma cart_routes_frame (o : op num) (w : world num) :
  match o with
  | Checkout _ _ _ _ | UpdateProduct _ _ _ _ => True
  | _ =>
      fault (run o w) = fault w /\
      products (db (run o w)) = products (db w) /\
      orders (db (run o w)) = orders (db w) /\
      order_items (db (run o w)) = order_items (db w)
  end.
Proof.
  destruct o; cbn [run]; try exact I.
  - unfold add_item, bind. split_handler; cbn; auto.
  - unfold update_item, bind. split_handler; cbn; auto.
  - unfold remove_item, bind. split_handler; cbn; auto.
  - unfold clear, bind. split_handler; cbn; auto.
Qed.

Lemma finalized_fault (userId : Z) (items : list (cart_item num))
    (w : world num) :
  fault (finalized userId items w) = fault w.
Proof.
  unfold finalized. now rewrite !write_fault.
Qed.

Lemma run_fault (o : op num) (w : world num) : fault (run o w) = fault w.
Proof.
  pose proof (cart_routes_frame o w) as H.
  destruct o; try (now destruct H).
  - cbn [run]. destruct (checkout_run userId b now random w); try reflexivity.
    now rewrite finalized_fault, write_items_fault.
  - cbn [run]. apply update_product_frame.
Qed.

Lemma has_status_products (s : string) (t t' : tables num) (pid : Z) :
  products t' = products t -> has_status s t' pid = has_status s t pid.
Proof. unfold has_status. now intros ->. Qed.

(** Marking products sold makes none available, and leaves none of the
    marked ones available. *)
Lemma available_after_sell (ids : list Z) (t t' : tables num) (pid : Z) :
  products t' = map (sell ids) (products t) ->
  is_available t' pid = true ->
  is_available t pid = true /\ mem pid ids = false.
Proof.
  intros E H. apply has_status_iff in H. destruct H as (p' & Hin & Hid & Hst).
  rewrite E in Hin. apply in_map_iff in Hin. destruct Hin as (p & Hp & Hin).
  unfold sell in Hp. destruct (mem (p_id p) ids) eqn:M.
  - subst p'. cbn in Hst. discriminate.
  - subst p'. split; [|congruence].
    apply has_status_iff. now exists p.
Qed.

(** A product that is not available stays so, unless an update relists
    it. *)
Lemma unavailable_stays (o : op num) (w : world num) (pid : Z) :
  keeps_sold o w ->
  is_available (db w) pid = false ->
  is_available (db (run o w)) pid = false.
Proof.
  intros K H.
  destruct (is_available (db (run o w)) pid) eqn:A; [exfalso|reflexivity].
  pose proof (cart_routes_frame o w) as F.
  destruct o;
    try (destruct F as (_ & F & _);
         unfold is_available in *;
         rewrite (has_status_products _ _ _ _ F) in A; congruence).
  - cbn [run] in A.
    destruct (checkout_run userId b now random w);
      try (cbn [db logged] in A; congruence).
    match type of A with
    | is_available (db (finalized ?u ?i ?w1)) _ = _ =>
        destruct (finalized_frame u i w1) as (_ & _ & [P | P]);
        destruct (write_items_frame (seq_orders (db w) + 1) i
                    (order_placed userId b (orderNumber now random) i w))
          as (P2 & _)
    end.
    + unfold is_available in *.
      rewrite (has_status_products _ (db w) _ _) in A; [congruence|].
      now rewrite P, P2.
    + rewrite P2 in P.
      apply (available_after_sell _ (db w) _ _ P) in A.
      destruct A. congruence.
  - cbn [run keeps_sold] in *.
    destruct (update_product_written w userId role productId b)
      as [P | [W P]].
    + unfold is_available in *.
      rewrite (has_status_products _ _ _ _ P) in A. congruence.
    + apply has_status_iff in A. destruct A as (p' & Hin & Hid & Hst).
      rewrite P in Hin. apply in_map_iff in Hin.
      destruct Hin as (p & Hp & Hin). unfold rewrite_product in Hp.
      destruct (p_id p =? productId) eqn:I.
      * subst p'. cbn in Hid, Hst. apply Z.eqb_eq in I.
        specialize (K W Hst). unfold is_available in *. congruence.
      * subst p'.
        assert (is_available (db w) pid = true)
          by (apply has_status_iff; now exists p).
        congruence.
Qed.

Lemma never_sold_again (pid : Z) (ops : list (op num)) :
  forall w, no_relisting ops w ->
            is_available (db w) pid = false ->
            sold_transitions pid ops w = 0%nat.
Proof.
  induction ops as [|o rest IH]; intros w N H; [reflexivity|].
  destruct N as [K N]. cbn [sold_transitions]. rewrite H. cbn.
  apply IH; [exact N | now apply unavailable_stays].
Qed.

Lemma sold_transitions_once (pid : Z) (ops : list (op num)) :
  forall w, no_relisting ops w -> (sold_transitions pid ops w <= 1)%nat.
Proof.
  induction ops as [|o rest IH]; intros w N; [cbn; lia|].
  destruct N as [K N]. cbn [sold_transitions].
  destruct (is_available (db (run o w)) pid) eqn:A.
  - rewrite andb_false_r. cbn. now apply IH.
  - rewrite (never_sold_again pid rest (run o w) N A).
    destruct (is_available (db w) pid && negb false
              && is_sold (db (run o w)) pid); lia.
Qed.

(** One request keeps ordered products unavailable and in one order. *)
Lemma run_keeps_single_sale (o : op num) (w : world num) :
  sold_update_reliable (fault w) ->
  keeps_sold o w ->
  ordered_unavailable (db w) -> one_order_per_product (db w) ->
  ordered_unavailable (db (run o w)) /\ one_order_per_product (db (run o w)).
Proof.
  intros R K U O.
  assert (U' : forall l, In l (order_items (db w)) ->
            is_available (db (run o w)) (oi_product_id l) = false).
  { intros l Hl. apply unavailable_stays; auto. }
  pose proof (cart_routes_frame o w) as F.
  destruct o;
    try (destruct F as (_ & _ & _ & F);
         unfold ordered_unavailable, one_order_per_product;
         rewrite F; split; [exact U' | exact O]).
  - cbn [run] in *.
    destruct (checkout_run userId b now random w) as [| | | |C S Hne T];
      try (split; assumption).
    set (items := cartQuery (db w) userId) in *.
    set (oid := seq_orders (db w) + 1) in *.
    set (w2 := order_placed userId b (orderNumber now random) items w) in *.
    destruct (finalized_frame userId items (write_items oid items w2))
      as (_ & Hi & _).
    destruct (write_items_frame oid items w2) as (P2 & _).
    assert (P : products (db (finalized userId items
                                (write_items oid items w2))) =
                map (sell (map (@ci_product_id num) items)) (products (db w))).
    { rewrite finalized_sold; [now rewrite P2|].
      now rewrite write_items_fault. }
    assert (New : forall l,
              In l (order_items (db (finalized userId items
                                       (write_items oid items w2)))) ->
              In l (order_items (db w)) \/
              (oi_order_id l = oid /\
               is_available (db w) (oi_product_id l) = true /\
               mem (oi_product_id l) (map (@ci_product_id num) items) = true)).
    { intros l Hl. rewrite Hi in Hl. apply write_items_new in Hl.
      destruct Hl as [Hl | (Ho & item & Hin & Hp & _)]; [now left|].
      right. split; [exact Ho|]. rewrite Hp. split.
      - now apply (cartQuery_available (db w) userId).
      - apply mem_iff. now apply in_map. }
    split.
    + intros l Hl. destruct (New l Hl) as [Hold | (_ & _ & M)];
        [now apply U'|].
      destruct (is_available (db (finalized userId items
                  (write_items oid items w2))) (oi_product_id l)) eqn:A;
        [|reflexivity].
      apply (available_after_sell _ (db w) _ _ P) in A.
      destruct A. congruence.
    + intros l1 l2 H1 H2 E.
      destruct (New l1 H1) as [Hold1 | (Ho1 & A1 & _)];
        destruct (New l2 H2) as [Hold2 | (Ho2 & A2 & _)].
      * now apply O.
      * rewrite <- E in A2. rewrite (U l1 Hold1) in A2. discriminate.
      * rewrite E in A1. rewrite (U l2 Hold2) in A1. discriminate.
      * congruence.
  - cbn [run] in *.
    destruct (update_product_frame w userId role productId b)
      as (_ & _ & Fi & _).
    unfold ordered_unavailable, one_order_per_product.
    rewrite Fi. split; [exact U' | exact O].
Qed.

Lemma run_all_keeps_single_sale (ops : list (op num)) :
  forall w,
    sold_update_reliable (fault w) -> no_relisting ops w ->
    ordered_unavailable (db w) -> one_order_per_product (db w) ->
    ordered_unavailable (db (run_all ops w)) /\
    one_order_per_product (db (run_all ops w)).
Proof.
  induction ops as [|o rest IH]; intros w R N U O; [now split|].
  destruct N as [K N]. cbn [run_all fold_left]. fold (run_all rest (run o w)).
  destruct (run_keeps_single_sale o w R K U O) as [U1 O1].
  apply IH; auto. now rewrite run_fault.
Qed.

(** C3, as the code has it: requests being served one after the other,
    from tables where every ordered product is unavailable and no product
    has OrderLines in two Orders, while the bulk status update of
    checkout does not fail and no product update that goes through (it
    is answered 200) writes 'available' onto a product that is not
    available - updates that are refused or fail are free -, any
    sequence of cart requests, checkouts and product updates takes a
    product from available to sold at most once and never puts OrderLines
    for one product into two Orders. *)
Theorem sold_once_without_relisting (ops : list (op num)) (w : world num) :
  sold_update_reliable (fault w) ->
  no_relisting ops w ->
  ordered_unavailable (db w) -> one_order_per_product (db w) ->
  sold_at_most_once ops w.
Proof.
  intros R N U O. split.
  - intros pid. now apply sold_transitions_once.
  - now apply run_all_keeps_single_sale.
Qed.

End Traces.

(** ** The order number *)

Lemma upper_digit36 (d : nat) :
  (d < 36)%nat -> upper_alnum (upper (digit36 d)) = true.
Proof.
  intros H.
  do 36 (destruct d as [|d]; [reflexivity|]).
  lia.
Qed.

(** With five or more radix-36 digits in [Math.random()], the suffix is
    five upper-case letters or digits. *)
Lemma suffix_of_five_digits (random : list nat) :
  (5 <= List.length random)%nat ->
  Forall (fun d => (d < 36)%nat) random ->
  five_upper_alnum (suffix random).
Proof.
  intros L F.
  destruct random as [|d1 [|d2 [|d3 [|d4 [|d5 rest]]]]]; cbn in L; try lia.
  repeat match goal with
         | H : Forall _ (_ :: _) |- _ => inversion H; clear H; subst
         end.
  unfold five_upper_alnum, suffix, substr, toString36.
  cbn [map string_of_list_ascii String.append substring toUpperCase
       String.length list_ascii_of_string forallb].
  assert (Z0 : forall s, substring 0 0 s = EmptyString)
    by (intros []; reflexivity).
  rewrite Z0.
  cbn [toUpperCase String.length list_ascii_of_string forallb].
  split; [reflexivity|].
  rewrite !upper_digit36 by assumption. reflexivity.
Qed.

(** C7, on the code: when [Math.random()] returns 0.5, whose radix-36
    numeral "0.i" has one digit, the order number is ECO-<millis>-I: its
    suffix has one character, not five. *)
Theorem order_number_short_suffix :
  toString36 one_half = "0.i" /\
  orderNumber 1700000000000%N one_half = "ECO-1700000000000-I" /\
  String.length (suffix one_half) = 1%nat /\
  ~ five_upper_alnum (suffix one_half).
Proof.
  repeat split; try reflexivity.
  intros [H _]. vm_compute in H. discriminate.
Qed.

(** ** Runs on the sample data *)

(** C1, on the code: the insert of the chair's OrderLine fails, the
    callback logs it and counts the line as processed; the answer is 201
    with totalAmount 239.99 for two items, while the one OrderLine
    persisted for order 1 sums to 89.99. *)
Theorem checkout_receipt_counts_failed_line :
  let run := checkout 3 jane 1700000000000%N [1; 2; 3; 4; 5; 6]%nat
               (start shop chair_line_fails) in
  fst run =
    Some {| status := 201;
            json := Receipt "Order placed successfully" 1
                      "ECO-1700000000000-12345" 23999 "Jane Doe"
                      "789 User Blvd" 2 |} /\
  map (@oi_product_id Z) (lines_of (db (snd run)) 1) = [1] /\
  lines_total (lines_of (db (snd run)) 1) = 8999 /\
  ~ total_matches_lines (fst run) (snd run).
Proof.
  cbn zeta. repeat split; try (vm_compute; reflexivity).
  intros H.
  specialize (H "Order placed successfully" 1 "ECO-1700000000000-12345"
                23999 "Jane Doe" "789 User Blvd" 2%nat).
  vm_compute in H. specialize (H eq_refl). discriminate.
Qed.


(** C3 fails on the code: user1 buys the jacket, its seller sends
    [PUT /1] without a status, which writes 'available', and user2 buys
    it again: the jacket goes from available to sold twice and orders 1
    and 2 both have an OrderLine for it. *)
Lemma resale_sells_twice :
  sold_transitions 1 resale (start quiet_shop reliable) = 2%nat /\
  map (fun l => (oi_order_id l, oi_product_id l))
      (order_items (db (run_all resale (start quiet_shop reliable))))
    = [(1, 1); (2, 1)] /\
  ~ one_order_per_product (db (run_all resale (start quiet_shop reliable))) /\
  ~ sold_at_most_once resale (start quiet_shop reliable).
Proof.
  assert (N : ~ one_order_per_product
                (db (run_all resale (start quiet_shop reliable)))).
  { intros H.
    specialize (H {| oi_id := 1; oi_order_id := 1; oi_product_id := 1;
                     oi_quantity := 1; oi_price := 8999 |}
                  {| oi_id := 2; oi_order_id := 2; oi_product_id := 1;
                     oi_quantity := 1; oi_price := 7999 |}).
    vm_compute in H.
    assert (E : 1 = 2) by (apply H; auto).
    discriminate. }
  repeat split; try (vm_compute; reflexivity); [exact N|].
  intros [_ H]. now apply N.
Qed.

(** C9 fails on the code: removing line 1 from an empty cart is answered
    with 404, not with success. *)
Lemma remove_from_empty_cart_not_found :
  cartItemQuery 1 3 quiet_shop = None /\
  fst (remove_item 3 1 (start quiet_shop reliable)) = cart_item_not_found /\
  ~ remove_is_idempotent 3 1 (start quiet_shop reliable).
Proof.
  repeat split; try reflexivity.
  intros H. destruct H as [H _]; [reflexivity|].
  vm_compute in H. discriminate.
Qed.

(** ** The theorems at work on the sample data *)

Lemma checkout_missing_field_witness :
  falsy (deliveryAddress no_address) = true /\
  fst (checkout 3 no_address 1700000000000%N one_half (start shop reliable))
    = Some validation_error /\
  snd (checkout 3 no_address 1700000000000%N one_half (start shop reliable))
    = start shop reliable.
Proof.
  split; [reflexivity|].
  destruct (checkout_missing_field (start shop reliable) 3 no_address
              1700000000000%N one_half) as (A & _ & _ & B).
  - right; right; right. reflexivity.
  - split; assumption.
Defined.

Lemma checkout_empty_cart_witness :
  cartQuery (db (start sold_out_shop reliable)) 3 = [] /\
  cart (db (start sold_out_shop reliable)) <> [] /\
  db (snd (checkout 3 jane 1700000000000%N one_half
             (start sold_out_shop reliable))) = sold_out_shop /\
  fst (checkout 3 jane 1700000000000%N one_half (start sold_out_shop reliable))
    = Some empty_cart /\
  fst (checkout 3 jane 1700000000000%N one_half (start quiet_shop reliable))
    = Some empty_cart.
Proof.
  split; [reflexivity|]. split; [discriminate|].
  destruct (checkout_empty_cart (start sold_out_shop reliable) 3 jane
              1700000000000%N one_half eq_refl) as (A & B).
  split; [exact A|]. split; [apply B; reflexivity|].
  apply (proj2 (checkout_empty_cart (start quiet_shop reliable) 3 jane
                  1700000000000%N one_half eq_refl)); reflexivity.
Defined.


Lemma sold_once_without_relisting_witness :
  sold_update_reliable (fault (start quiet_shop reliable)) /\
  no_relisting watched_sale (start quiet_shop reliable) /\
  sold_at_most_once watched_sale (start quiet_shop reliable).
Proof.
  assert (R : sold_update_reliable (fault (start quiet_shop reliable)))
    by (intros k ids; reflexivity).
  assert (N : no_relisting watched_sale (start quiet_shop reliable)).
  { cbn [no_relisting watched_sale honest_sale app keeps_sold].
    repeat split; intros S A; vm_compute in S; discriminate. }
  split; [exact R|]. split; [exact N|].
  apply (sold_once_without_relisting watched_sale (start quiet_shop reliable)
           R N).
  - intros l [].
  - intros l1 l2 [].
Defined.

Lemma order_prices_frozen_witness :
  exists p, In p (products shop) /\ p_id p = 1 /\ available p = true /\
            8999 = p_price p.
Proof.
  destruct (proj1 (@order_prices_frozen Z cents) (start shop reliable) 3 jane
              1700000000000%N [1; 2; 3; 4; 5; 6]%nat
              {| oi_id := 1; oi_order_id := 1; oi_product_id := 1;
                 oi_quantity := 1; oi_price := 8999 |})
    as [[] | H].
  - vm_compute. left. reflexivity.
  - exact H.
Defined.

Lemma updateQuantity_below_one_removes_witness :
  below_one zero = true /\
  cartItemQuery 1 3 (db (start shop reliable)) =
    Some {| c_id := 1; c_user_id := 3; c_product_id := 1;
            c_quantity := 1 |} /\
  fst (CartPage_updateQuantity 3 1 zero (start shop reliable)) =
    Some {| message := "Item removed from cart"; type_ := "success" |} /\
  cartItemQuery 1 3
    (db (snd (CartPage_updateQuantity 3 1 zero (start shop reliable))))
    = None.
Proof.
  split; [reflexivity|]. split; [reflexivity|].
  destruct (updateQuantity_below_one_removes (start shop reliable) 3 1 zero
              {| c_id := 1; c_user_id := 3; c_product_id := 1;
                 c_quantity := 1 |} eq_refl) as [_ H].
  destruct (H eq_refl eq_refl eq_refl) as (_ & T & _ & N & _).
  split; [exact T | exact N].
Defined.

Lemma remove_missing_not_found_clear_succeeds_witness :
  fst (remove_item 3 1 (start quiet_shop reliable)) = cart_item_not_found /\
  fst (remove_item 3 1 (snd (remove_item 3 1 (start shop reliable))))
    = cart_item_not_found /\
  fst (clear 3 (start quiet_shop reliable))
    = {| status := 200; json := Message "Cart cleared successfully" |} /\
  db (snd (clear 3 (start quiet_shop reliable))) = quiet_shop.
Proof.
  split; [|split].
  - apply (proj1 (remove_missing_not_found_clear_succeeds
                    (start quiet_shop reliable) 3 1)); reflexivity.
  - apply (proj1 (proj2 (remove_missing_not_found_clear_succeeds
                           (start shop reliable) 3 1))
             eq_refl _ eq_refl).
    reflexivity.
  - destruct (proj2 (proj2 (remove_missing_not_found_clear_succeeds
                              (start quiet_shop reliable) 3 1)) eq_refl)
      as (A & _ & B).
    split; [exact A|]. apply B. reflexivity.
Defined.

Lemma order_detail_owner_scoped_witness :
  status (fst (order_detail 3 1 after_sale)) = 200%nat /\
  fst (order_detail 4 1 after_sale) = order_not_found /\
  fst (order_detail 3 2 after_sale) = order_not_found.
Proof.
  split; [|split].
  - rewrite (proj1 (proj2 (order_detail_owner_scoped after_sale 3 1))
               {| o_id := 1; o_user_id := 3; o_total_amount := 8999;
                  o_status := "completed"; o_customer_name := "Jane Doe";
                  o_customer_email := "user1@ecofinds.com";
                  o_customer_phone := "+1234567892";
                  o_delivery_address := "789 User Blvd";
                  o_delivery_notes := None;
                  o_order_number := "ECO-1700000000000-12345" |}).
    + reflexivity.
    + vm_compute. constructor; [intros [] | constructor].
    + reflexivity.
    + reflexivity.
    + vm_compute. left. reflexivity.
    + reflexivity.
    + reflexivity.
  - apply (proj2 (proj2 (order_detail_owner_scoped after_sale 4 1))).
    + intros o H. vm_compute in H. destruct H as [<- | []].
      intros _. discriminate.
    + reflexivity.
  - apply (proj2 (proj2 (order_detail_owner_scoped after_sale 3 2))).
    + intros o H. vm_compute in H. destruct H as [<- | []].
      discriminate.
    + reflexivity.
Defined.

(** ** The cart routes, line by line *)

Ltac split_handler_eq :=
  repeat match goal with
  | |- context [query ?s ?f ?w] =>
      let E := fresh "E" in
      destruct (query_cases _ s f w) as [E | E]; rewrite E; clear E
  | |- context [write ?s ?f ?w] =>
      let E := fresh "E" in
      destruct (write_cases s f w) as [E | E]; rewrite E; clear E
  | |- context [match ?x with _ => _ end] => destruct x eqn:?
  end.

Section CartLines.
Context {num : Type} {number : Number num}.

(** The three ways [POST /add] ends. *)
Lemma add_item_cases (w : world num) (userId : Z)
    (productId quantity : option Z) :
  (status (fst (add_item userId productId quantity w)) <> 200%nat /\
   status (fst (add_item userId productId quantity w)) <> 201%nat /\
   db (snd (add_item userId productId quantity w)) = db w) \/
  exists pid p,
    productId = Some pid /\ productQuery pid (db w) = Some p /\
    available p = true /\ p_seller_id p <> userId /\
    ((existingQuery userId pid (db w) = None /\
      status (fst (add_item userId productId quantity w)) = 201%nat /\
      db (snd (add_item userId productId quantity w)) =
      add_cart_row userId pid
        (match quantity with Some q => q | None => 1 end) (db w)) \/
     (exists e,
        existingQuery userId pid (db w) = Some e /\
        status (fst (add_item userId productId quantity w)) = 200%nat /\
        db (snd (add_item userId productId quantity w)) =
        update_cart_quantity (c_id e)
          (c_quantity e + match quantity with Some q => q | None => 1 end)
          (db w))).
Proof.
  unfold add_item, bind.
  set (q := match quantity with Some q => q | None => 1 end).
  destruct productId as [pid|]; cbn [falsy_int];
    [|left; repeat split; discriminate].
  destruct (pid =? 0); [left; repeat split; discriminate|].
  split_handler_eq; unfold ret; cbn [fst snd db logged status] in *;
    try (left; repeat split; discriminate);
    right; exists pid;
    match goal with
    | H : productQuery pid (db w) = Some ?p |- _ => exists p
    end;
    (split; [reflexivity|]); (split; [assumption|]);
    (split; [now apply negb_false_iff|]);
    (split; [now apply Z.eqb_neq|]);
    first [ right; eexists; split; [eassumption|]; now split
          | left; now repeat split ].
Qed.

End CartLines.

(** ** What a request does to the cart table *)

Section CartChanges.
Context {num : Type} {number : Number num}.

Lemma find_in (A : Type) (f : A -> bool) (l : list A) (x : A) :
  find f l = Some x -> In x l /\ f x = true.
Proof. apply find_some. Qed.

Lemma update_item_cases (w : world num) (userId itemId : Z)
    (quantity : option Z) :
  (status (fst (update_item userId itemId quantity w)) <> 200%nat /\
   db (snd (update_item userId itemId quantity w)) = db w) \/
  exists q line,
    quantity = Some q /\ 1 <= q /\
    cartItemQuery itemId userId (db w) = Some line /\
    status (fst (update_item userId itemId quantity w)) = 200%nat /\
    db (snd (update_item userId itemId quantity w)) =
    update_cart_quantity itemId q (db w).
Proof.
  unfold update_item, bind.
  destruct quantity as [q|]; cbn [falsy_int orb]; [|left; now split].
  destruct (q =? 0) eqn:Z0; cbn [orb]; [left; now split|].
  destruct (q <? 1) eqn:L; [left; now split|].
  apply Z.ltb_ge in L.
  split_handler_eq; unfold ret; cbn [fst snd db logged status] in *;
    try (left; split; [discriminate | reflexivity]).
  right. exists q. eexists. repeat split; try eassumption; reflexivity.
Qed.

Lemma finalized_cart (userId : Z) (items : list (cart_item num))
    (w : world num) :
  seq_cart (db (finalized userId items w)) = seq_cart (db w) /\
  (cart (db (finalized userId items w)) = cart (db w) \/
   cart (db (finalized userId items w)) =
   filter (fun c => negb (c_user_id c =? userId)) (cart (db w))).
Proof.
  unfold finalized.
  destruct (write_cases (UpdProductsSold (map (@ci_product_id num) items))
              (mark_sold (map (@ci_product_id num) items)) w) as [E | E];
    rewrite E; cbn [snd];
    match goal with
    | |- context [write ?s ?f ?w1] =>
        destruct (write_cases s f w1) as [E' | E']; rewrite E'
    end; cbn; auto.
Qed.

Lemma write_items_seq_cart (orderId : Z) (items : list (cart_item num)) :
  forall w, seq_cart (db (write_items orderId items w)) = seq_cart (db w).
Proof.
  induction items as [|item rest IH]; intros w; [reflexivity|].
  rewrite write_items_cons, IH.
  destruct (write_cases (InsOrderItem orderId (ci_product_id item)
                           (ci_quantity item))
                        (add_order_item orderId item) w) as [E | E];
    now rewrite E.
Qed.

Lemma add_item_change (w : world num) (userId : Z)
    (productId quantity : option Z) :
  cart_change userId (db w)
    (cart (db (snd (add_item userId productId quantity w))))
    (seq_cart (db (snd (add_item userId productId quantity w)))).
Proof.
  unfold add_item, bind.
  set (q := match quantity with Some q => q | None => 1 end).
  destruct productId as [pid|]; cbn [falsy_int]; [|constructor].
  destruct (pid =? 0); [constructor|].
  split_handler_eq; unfold ret; cbn [fst snd db logged] in *;
    try constructor.
  - match goal with
    | H : existingQuery _ _ _ = Some ?e |- _ =>
        apply find_in in H; destruct H as [Hin He];
        apply andb_true_iff in He; destruct He as [Hu _];
        apply Z.eqb_eq in Hu
    end.
    cbn. now apply CartRequantified.
  - cbn. eapply CartAppended; eassumption.
Qed.

(** Every cart or checkout request changes the cart table in one of five
    ways. *)
Lemma run_cart_change (o : op num) (w : world num) (u : Z) :
  actor o = Some u ->
  cart_change u (db w) (cart (db (run o w))) (seq_cart (db (run o w))).
Proof.
  destruct o; cbn [actor run]; intros [= <-].
  - apply add_item_change.
  - destruct (update_item_cases w userId itemId quantity)
      as [[_ E] | (q & line & _ & _ & Hq & _ & E)]; rewrite E.
    + constructor.
    + cbn. apply find_in in Hq. destruct Hq as [Hin Hq].
      apply andb_true_iff in Hq. destruct Hq as [Hi Hu].
      apply Z.eqb_eq in Hi, Hu. rewrite <- Hi.
      now apply CartRequantified.
  - destruct (remove_item_cases w userId itemId)
      as [[_ E] | [(_ & _ & E) | [(_ & _ & _ & E) | (_ & N & E)]]];
      rewrite E; try constructor.
    cbn. destruct (cartItemQuery itemId userId (db w)) as [line|] eqn:Q;
      [|congruence].
    apply find_in in Q. destruct Q as [Hin Q].
    apply andb_true_iff in Q. destruct Q as [Hi Hu].
    apply Z.eqb_eq in Hi, Hu. rewrite <- Hi.
    now apply CartLineDeleted.
  - unfold clear, bind.
    destruct (write_cases (DelCartUser userId) (delete_cart_user userId) w)
      as [E | E]; rewrite E; cbn; constructor.
  - destruct (checkout_run userId b now random w); try constructor.
    match goal with
    | |- context [finalized ?u ?i ?w1] =>
        destruct (finalized_cart u i w1) as (S1 & [C1 | C1]);
        rewrite S1, C1
    end;
      rewrite write_items_seq_cart;
      match goal with
      | |- context [write_items ?o ?i ?w2] =>
          destruct (write_items_frame o i w2) as (_ & C2 & _); rewrite C2
      end; cbn; constructor.
Qed.

End CartChanges.

(** ** Invariants of the cart table *)

Section CartInvariants.
Context {num : Type} {number : Number num}.

Lemma NoDup_map_filter (A B : Type) (f : A -> B) (g : A -> bool)
    (l : list A) :
  NoDup (map f l) -> NoDup (map f (filter g l)).
Proof.
  induction l as [|a l IH]; cbn; intros H; [constructor|].
  inversion H as [|? ? Hn Hd]; subst.
  destruct (g a); cbn; [|now apply IH].
  constructor; [|now apply IH].
  intros Hin. apply Hn. apply in_map_iff in Hin.
  destruct Hin as (x & Hx & Hin). apply filter_In in Hin.
  apply in_map_iff. exists x. tauto.
Qed.

Lemma NoDup_map_snoc (A B : Type) (f : A -> B) (l : list A) (x : A) :
  NoDup (map f l) -> ~ In (f x) (map f l) -> NoDup (map f (l ++ [x])).
Proof.
  intros Hd Hn. rewrite map_app. cbn.
  apply NoDup_app; [assumption | constructor; [intros [] | constructor] |].
  intros b Hb [<- | []]. now apply Hn.
Qed.

Lemma requantify_id (itemId q : Z) (c : cart_row) :
  c_id (requantify itemId q c) = c_id c /\
  c_user_id (requantify itemId q c) = c_user_id c /\
  c_product_id (requantify itemId q c) = c_product_id c.
Proof.
  unfold requantify. destruct (c_id c =? itemId); now repeat split.
Qed.

Lemma map_requantify (B : Type) (f : cart_row -> B) (itemId q : Z)
    (l : list cart_row) :
  (forall c, f (requantify itemId q c) = f c) ->
  map f (map (requantify itemId q) l) = map f l.
Proof.
  intros H. rewrite map_map. apply map_ext. exact H.
Qed.

Lemma same_id_same_row (l : list cart_row) (a b : cart_row) :
  NoDup (map c_id l) -> In a l -> In b l -> c_id a = c_id b -> a = b.
Proof.
  induction l as [|x l IH]; intros Hd Ha Hb E; [destruct Ha|].
  inversion Hd as [|? ? Hn Hd']; subst.
  destruct Ha as [-> | Ha]; destruct Hb as [-> | Hb]; auto.
  - exfalso. apply Hn. rewrite E. now apply in_map.
  - exfalso. apply Hn. rewrite <- E. now apply in_map.
Qed.

Lemma cart_change_fresh (u : Z) (t : tables num) (l : list cart_row)
    (s : Z) :
  cart_ids_fresh t -> cart_change u t l s ->
  NoDup (map c_id l) /\ forall c, In c l -> c_id c <= s.
Proof.
  intros [Hd Hb] C. destruct C.
  - now split.
  - split.
    + apply NoDup_map_snoc; [assumption|]. cbn. intros Hin.
      apply in_map_iff in Hin. destruct Hin as (c & Hc & Hin).
      apply Hb in Hin. lia.
    + intros c Hin. apply in_app_or in Hin.
      destruct Hin as [Hin | [<- | []]]; [apply Hb in Hin; lia | cbn; lia].
  - split.
    + rewrite map_requantify; [assumption|]. intros c. apply requantify_id.
    + intros c Hin. apply in_map_iff in Hin. destruct Hin as (c0 & <- & Hin).
      destruct (requantify_id (c_id line) q c0) as (-> & _). now apply Hb.
  - split.
    + now apply NoDup_map_filter.
    + intros c Hin. apply filter_In in Hin. now apply Hb.
  - split.
    + now apply NoDup_map_filter.
    + intros c Hin. apply filter_In in Hin. now apply Hb.
Qed.

Lemma cart_change_unique (u : Z) (t : tables num) (l : list cart_row)
    (s : Z) :
  one_line_per_product t -> cart_change u t l s ->
  NoDup (map (fun c => (c_user_id c, c_product_id c)) l).
Proof.
  unfold one_line_per_product. intros Hd C. destruct C.
  - assumption.
  - apply NoDup_map_snoc; [assumption|]. cbn. intros Hin.
    apply in_map_iff in Hin. destruct Hin as (c & Hc & Hin).
    injection Hc as Hu Hp. unfold existingQuery in H0.
    apply (find_none _ _ H0) in Hin.
    rewrite Hu, Hp, !Z.eqb_refl in Hin. discriminate.
  - rewrite map_requantify; [assumption|]. intros c.
    destruct (requantify_id (c_id line) q c) as (_ & -> & ->). reflexivity.
  - now apply NoDup_map_filter.
  - now apply NoDup_map_filter.
Qed.

Lemma filter_map_fixed (f : cart_row -> cart_row) (g : cart_row -> bool)
    (l : list cart_row) :
  (forall c, g (f c) = g c) ->
  (forall c, In c l -> g c = true -> f c = c) ->
  filter g (map f l) = filter g l.
Proof.
  intros Hg Hf. induction l as [|a l IH]; [reflexivity|].
  cbn. rewrite Hg. destruct (g a) eqn:G.
  - rewrite (Hf a (or_introl eq_refl) G). f_equal.
    apply IH. intros c Hc. apply Hf. now right.
  - apply IH. intros c Hc. apply Hf. now right.
Qed.

Lemma filter_filter_other (g h : cart_row -> bool) (l : list cart_row) :
  (forall c, In c l -> g c = true -> h c = true) ->
  filter g (filter h l) = filter g l.
Proof.
  intros H. induction l as [|a l IH]; [reflexivity|].
  cbn. destruct (h a) eqn:Ha; cbn.
  - destruct (g a); [f_equal|]; apply IH; intros c Hc; apply H; now right.
  - destruct (g a) eqn:Ga.
    + rewrite (H a (or_introl eq_refl) Ga) in Ha. discriminate.
    + apply IH. intros c Hc. apply H. now right.
Qed.

Lemma cart_change_others (u v : Z) (t : tables num) (l : list cart_row)
    (s : Z) :
  cart_ids_fresh t -> cart_change u t l s -> u <> v ->
  filter (fun c => c_user_id c =? v) l = lines_of_user v t.
Proof.
  intros [Hd _] C N. unfold lines_of_user. destruct C.
  - reflexivity.
  - rewrite filter_app. cbn.
    assert (E : (u =? v) = false) by now apply Z.eqb_neq.
    rewrite E. apply app_nil_r.
  - apply filter_map_fixed.
    + intros c. now destruct (requantify_id (c_id line) q c) as (_ & -> & _).
    + intros c Hc Hv. unfold requantify.
      destruct (c_id c =? c_id line) eqn:I; [|reflexivity].
      apply Z.eqb_eq in I, Hv.
      assert (c = line) by (eapply same_id_same_row; eauto).
      subst c. congruence.
  - apply filter_filter_other. intros c Hc Hv.
    apply negb_true_iff. apply Z.eqb_neq. intros I.
    apply Z.eqb_eq in Hv.
    assert (c = line) by (eapply same_id_same_row; eauto).
    subst c. congruence.
  - apply filter_filter_other. intros c Hc Hv.
    apply negb_true_iff. apply Z.eqb_neq. apply Z.eqb_eq in Hv. congruence.
Qed.

(** What [DELETE /:id] leaves alone. *)
Lemma delete_product_frame (e1 e2 : bool) (userId : Z) (role : string)
    (productId : Z) (t : tables num) :
  let t' := snd (delete_product e1 e2 userId role productId t) in
  cart t' = cart t /\ seq_cart t' = seq_cart t /\
  orders t' = orders t /\ order_items t' = order_items t /\
  (products t' = products t \/
   (referenced productId t = false /\
    products t' = filter (fun p => negb (p_id p =? productId))
                         (products t))).
Proof.
  cbn zeta. unfold delete_product.
  destruct e1; [cbn; auto 6|].
  destruct (productQuery productId t) as [p|]; [|cbn; auto 6].
  destruct (negb (p_seller_id p =? userId) && negb (role =? "admin")%string);
    [cbn; auto 6|].
  destruct e2; cbn [orb]; [cbn; auto 6|].
  destruct (referenced productId t) eqn:R; cbn; auto 7.
Qed.

(** A request changes the cart table as its actor may, or not at all. *)
Lemma serve_cart_change (r : request num) (w : world num) :
  match request_actor r with
  | Some u =>
      cart_change u (db w) (cart (db (serve r w))) (seq_cart (db (serve r w)))
  | None =>
      cart (db (serve r w)) = cart (db w) /\
      seq_cart (db (serve r w)) = seq_cart (db w)
  end.
Proof.
  destruct r as [o | e1 e2 u role p]; cbn [request_actor serve].
  - destruct (actor o) as [u|] eqn:A; [now apply run_cart_change|].
    destruct o; try discriminate. cbn [run].
    unfold update_product, bind.
    split_handler; cbn; auto.
  - cbn [db]. destruct (delete_product_frame e1 e2 u role p (db w))
      as (C & S & _). now split.
Qed.

Lemma serve_fresh (r : request num) (w : world num) :
  cart_ids_fresh (db w) -> cart_ids_fresh (db (serve r w)).
Proof.
  intros F. pose proof (serve_cart_change r w) as C.
  destruct (request_actor r) as [u|].
  - exact (cart_change_fresh _ _ _ _ F C).
  - destruct C as [C S]. unfold cart_ids_fresh. rewrite C, S. exact F.
Qed.

(** The code keeps the cart free of duplicates without a UNIQUE
    constraint: if no user has two lines for one product, no sequence of
    requests (cart routes, checkouts, product updates and deletions,
    whatever fails in them) produces such a pair. *)
Theorem cart_lines_stay_unique (rs : list (request num)) :
  forall w : world num,
    one_line_per_product (db w) ->
    one_line_per_product (db (serve_all rs w)).
Proof.
  induction rs as [|r rs IH]; intros w H; [exact H|].
  cbn [serve_all fold_left]. apply IH.
  pose proof (serve_cart_change r w) as C.
  destruct (request_actor r) as [u|].
  - exact (cart_change_unique _ _ _ _ H C).
  - destruct C as [C _]. unfold one_line_per_product. now rewrite C.
Qed.

(** Carts are isolated: with distinct cart ids, no sequence of requests
    made for other users (or on the catalog) adds, changes or removes a
    line of user [v]. *)
Theorem other_carts_untouched (v : Z) (rs : list (request num)) :
  forall w : world num,
    cart_ids_fresh (db w) ->
    Forall (fun r => request_actor r <> Some v) rs ->
    lines_of_user v (db (serve_all rs w)) = lines_of_user v (db w).
Proof.
  induction rs as [|r rs IH]; intros w F H; [reflexivity|].
  inversion H as [|? ? Hr Hrs]; subst.
  cbn [serve_all fold_left]. fold (serve_all rs (serve r w)).
  rewrite IH; [|now apply serve_fresh | assumption].
  pose proof (serve_cart_change r w) as C.
  destruct (request_actor r) as [u|].
  - unfold lines_of_user at 1.
    apply (cart_change_others u v _ _ _ F C). congruence.
  - destruct C as [C _]. unfold lines_of_user. now rewrite C.
Qed.

End CartInvariants.

(** ** Round trips through the cart *)

Section CartRoundTrips.
Context {num : Type} {number : Number num}.

Lemma find_app_none (A : Type) (f : A -> bool) (l l' : list A) :
  find f l = None -> find f (l ++ l') = find f l'.
Proof.
  induction l as [|a l IH]; cbn; [reflexivity|].
  destruct (f a); [discriminate | exact IH].
Qed.

Lemma find_none_all (A : Type) (f : A -> bool) (l : list A) :
  (forall x, In x l -> f x = false) -> find f l = None.
Proof.
  induction l as [|a l IH]; cbn; intros H; [reflexivity|].
  rewrite (H a (or_introl eq_refl)). apply IH. auto.
Qed.

Lemma find_map_same (A : Type) (f : A -> bool) (g : A -> A) (l : list A) :
  (forall x, f (g x) = f x) ->
  find f (map g l) = option_map g (find f l).
Proof.
  intros H. induction l as [|a l IH]; cbn; [reflexivity|].
  rewrite H. destruct (f a); [reflexivity | exact IH].
Qed.

(** [POST /add] touches the tables only for a product of the catalog
    that is available and that the caller does not sell. *)
Theorem add_item_guarded (w : world num) (userId : Z)
    (productId quantity : option Z) :
  db (snd (add_item userId productId quantity w)) <> db w ->
  exists pid p,
    productId = Some pid /\ In p (products (db w)) /\ p_id p = pid /\
    p_status p = "available" /\ p_seller_id p <> userId.
Proof.
  intros H.
  destruct (add_item_cases w userId productId quantity)
    as [(_ & _ & E) | (pid & p & Hpid & Hp & Ha & Hs & _)]; [congruence|].
  exists pid, p. apply find_in in Hp. destruct Hp as [Hin Hid].
  repeat split; try assumption.
  - now apply Z.eqb_eq.
  - now apply String.eqb_eq.
Qed.

(** After [POST /add] answered 200 or 201 the caller has a line for the
    product: answered 201 there was none, and the line carries the next
    id of the sequence; answered 200 it is the line that was there, under
    its id. *)
Theorem add_item_found_again (w : world num) (userId pid : Z)
    (quantity : option Z) :
  status (fst (add_item userId (Some pid) quantity w)) = 200%nat \/
  status (fst (add_item userId (Some pid) quantity w)) = 201%nat ->
  exists line,
    existingQuery userId pid (db (snd (add_item userId (Some pid) quantity w)))
      = Some line /\
    c_user_id line = userId /\ c_product_id line = pid /\
    match existingQuery userId pid (db w) with
    | Some e =>
        status (fst (add_item userId (Some pid) quantity w)) = 200%nat /\
        c_id line = c_id e
    | None =>
        status (fst (add_item userId (Some pid) quantity w)) = 201%nat /\
        c_id line = seq_cart (db w) + 1
    end.
Proof.
  intros H.
  destruct (add_item_cases w userId (Some pid) quantity)
    as [(N1 & N2 & _) | (pid' & p & [= <-] & _ & _ & _ &
                         [(He & H201 & E) | (e & He & H200 & E)])].
  - destruct H; congruence.
  - rewrite He, E, H201. unfold existingQuery in *.
    cbn [cart add_cart_row].
    rewrite find_app_none by exact He. cbn. rewrite !Z.eqb_refl. cbn.
    eexists. split; [reflexivity|]. cbn. repeat split.
  - rewrite He, E, H200. unfold existingQuery in *.
    cbn [cart update_cart_quantity set_cart].
    rewrite find_map_same, He.
    + cbn. eexists. split; [reflexivity|].
      unfold requantify. rewrite Z.eqb_refl. cbn.
      apply find_in in He. destruct He as [_ He].
      apply andb_true_iff in He. destruct He as [Hu Hp].
      apply Z.eqb_eq in Hu, Hp. repeat split; assumption.
    + intros c. destruct (requantify_id (c_id e)
        (c_quantity e + match quantity with Some q => q | None => 1 end) c)
        as (_ & -> & ->). reflexivity.
Qed.

(** With distinct cart ids handed out by the sequence, removing the line
    that [POST /add] just created puts the cart table back as it was. *)
Theorem add_then_remove (w : world num) (userId : Z)
    (productId quantity : option Z) :
  cart_ids_fresh (db w) ->
  status (fst (add_item userId productId quantity w)) = 201%nat ->
  let w1 := snd (add_item userId productId quantity w) in
  let itemId := seq_cart (db w) + 1 in
  succeeds (SelCartItem itemId userId) w1 ->
  succeeds (DelCartItem itemId) (logged (SelCartItem itemId userId) w1) ->
  status (fst (remove_item userId itemId w1)) = 200%nat /\
  cart (db (snd (remove_item userId itemId w1))) = cart (db w).
Proof.
  intros [Hd Hb] H201 w1 itemId S1 S2.
  destruct (add_item_cases w userId productId quantity)
    as [(_ & N & _) | (pid & p & _ & _ & _ & _ &
                       [(He & _ & E) | (e & _ & H200 & _)])];
    try congruence.
  assert (C1 : cart (db w1) = cart (db w) ++
                [{| c_id := itemId; c_user_id := userId; c_product_id := pid;
                    c_quantity := match quantity with
                                  | Some q => q | None => 1 end |}])
    by (unfold w1; now rewrite E).
  assert (Old : forall c, In c (cart (db w)) -> (c_id c =? itemId) = false).
  { intros c Hc. apply Z.eqb_neq. apply Hb in Hc. unfold itemId. lia. }
  destruct (remove_item_cases w1 userId itemId)
    as [[F _] | [(_ & Q & _) | [(_ & _ & F & _) | (_ & _ & R)]]].
  - unfold succeeds in S1. congruence.
  - exfalso. unfold cartItemQuery in Q. rewrite C1 in Q.
    rewrite find_app_none in Q.
    + cbn in Q. rewrite !Z.eqb_refl in Q. discriminate.
    + apply find_none_all. intros c Hc. now rewrite (Old c Hc).
  - unfold succeeds in S2. cbn in S2. rewrite length_app in S2. cbn in S2.
    replace (List.length (journal w1) + 1)%nat
      with (S (List.length (journal w1))) in S2 by lia.
    congruence.
  - rewrite R. cbn [fst snd status db]. split; [reflexivity|].
    cbn [cart delete_cart_item set_cart]. rewrite C1, filter_app. cbn.
    rewrite Z.eqb_refl. cbn. rewrite app_nil_r.
    apply filter_all. intros c Hc. now rewrite (Old c Hc).
Qed.

End CartRoundTrips.

(** ** Cart page, purchase history and sales *)

Section ViewProofs.
Context {num : Type} {number : Number num}.

Lemma unique_match_length (g : product num -> bool) (x : Z)
    (ps : list (product num)) :
  NoDup (map (@p_id num) ps) ->
  List.length (filter (fun p => (p_id p =? x) && g p) ps) =
  if existsb (fun p => (p_id p =? x) && g p) ps then 1%nat else 0%nat.
Proof.
  induction ps as [|a ps IH]; intros Hd; [reflexivity|].
  inversion Hd as [|? ? Hn Hd']; subst. cbn.
  destruct (p_id a =? x) eqn:I; cbn.
  - apply Z.eqb_eq in I.
    assert (E : filter (fun p => (p_id p =? x) && g p) ps = []).
    { rewrite (filter_ext_in _ (fun _ => false)); [apply filter_false|].
      intros p Hp.
      destruct (p_id p =? x) eqn:J; [|reflexivity].
      exfalso. apply Z.eqb_eq in J. apply Hn. rewrite I, <- J.
      now apply in_map. }
    destruct (g a); cbn.
    + now rewrite E.
    + rewrite IH by assumption. reflexivity.
  - now apply IH.
Qed.

Lemma cartQuery_length (t : tables num) (userId : Z) :
  NoDup (map (@p_id num) (products t)) ->
  List.length (cartQuery t userId) =
  List.length (filter (fun c => is_available t (c_product_id c))
                      (lines_of_user userId t)).
Proof.
  intros Hd. unfold cartQuery, lines_of_user.
  induction (filter (fun c => c_user_id c =? userId) (cart t))
    as [|c l IH]; [reflexivity|].
  cbn [flat_map filter]. rewrite length_app, IH.
  unfold join_cart. rewrite length_map.
  rewrite (unique_match_length (@available num) (c_product_id c)
             (products t) Hd).
  unfold is_available, has_status, available.
  destruct (existsb _ (products t)); reflexivity.
Qed.

(** The cart badge counts every line of the user, the cart page only the
    lines whose product is available: with distinct product ids the
    page's itemCount is the number of those lines, and never more than
    the badge's count. *)
Theorem cart_badge_counts_stale_lines
    (by_added_at : list (cart_item num) -> list (cart_item num))
    (userId : Z) (t : tables num) :
  (forall l, Permutation (by_added_at l) l) ->
  NoDup (map (@p_id num) (products t)) ->
  exists page,
    get_cart by_added_at false userId t = Served 200 page /\
    cp_itemCount page =
      List.length (filter (fun c => is_available t (c_product_id c))
                          (lines_of_user userId t)) /\
    get_cart_count false userId t =
      Served 200 (List.length (lines_of_user userId t)) /\
    (cp_itemCount page <= List.length (lines_of_user userId t))%nat.
Proof.
  intros Hp Hd. eexists. split; [reflexivity|]. cbn [cp_itemCount].
  rewrite (Permutation_length (Hp _)), cartQuery_length by assumption.
  split; [reflexivity|]. split; [reflexivity|].
  apply filter_length_le.
Qed.

Lemma history_count (t : tables num) (orderId : Z) :
  NoDup (map (@p_id num) (products t)) ->
  List.length (joined_lines t orderId) = List.length (lines_of t orderId).
Proof.
  intros Hd. unfold joined_lines.
  induction (lines_of t orderId) as [|oi l IH]; [reflexivity|].
  cbn [flat_map]. rewrite length_app, IH. cbn [List.length]. f_equal.
  assert (U : (List.length
                 (filter (fun p => (p_id p =? oi_product_id oi)%Z)
                         (products t))
               <= 1)%nat).
  { rewrite (filter_ext _
               (fun p => (p_id p =? oi_product_id oi)
                         && (fun _ : product num => true) p))
      by (intros p; symmetry; apply andb_true_r).
    rewrite unique_match_length by assumption.
    match goal with |- context [if ?c then _ else _] => destruct c end; lia. }
  destruct (filter (fun p => p_id p =? oi_product_id oi) (products t))
    as [|p ps]; [reflexivity|].
  rewrite length_map. cbn in U |- *. lia.
Qed.

(** The purchase history lists the caller's orders and nobody else's,
    each once; with distinct product ids the item count of a row is the
    number of OrderLines of its order. *)
Theorem history_lists_own_orders
    (by_created_at : list (history_row num) -> list (history_row num))
    (userId : Z) (t : tables num) :
  (forall l, Permutation (by_created_at l) l) ->
  exists rows,
    get_history by_created_at false userId t = Served 200 rows /\
    (forall row, In row rows <->
       exists o, In o (orders t) /\ o_user_id o = userId /\
                 row = history_of t o) /\
    List.length rows =
      List.length (filter (fun o => o_user_id o =? userId) (orders t)) /\
    (NoDup (map (@p_id num) (products t)) ->
     forall row, In row rows ->
       h_item_count row = List.length (lines_of t (o_id (h_order row)))).
Proof.
  intros Hp. eexists. split; [reflexivity|].
  assert (M : forall row,
            In row (by_created_at (map (history_of t)
                      (filter (fun o => o_user_id o =? userId) (orders t))))
            <-> exists o, In o (orders t) /\ o_user_id o = userId /\
                          row = history_of t o).
  { intros row. split.
    - intros H. apply (Permutation_in _ (Hp _)) in H.
      apply in_map_iff in H. destruct H as (o & <- & H).
      apply filter_In in H. destruct H as [H1 H2].
      exists o. repeat split; [assumption | now apply Z.eqb_eq].
    - intros (o & H1 & H2 & ->).
      apply (Permutation_in _ (Permutation_sym (Hp _))).
      apply in_map. apply filter_In. split; [assumption|].
      now apply Z.eqb_eq. }
  split; [exact M|]. split.
  - now rewrite (Permutation_length (Hp _)), length_map.
  - intros Hd row H. apply M in H. destruct H as (o & _ & _ & ->).
    cbn. now apply history_count.
Qed.

Lemma salesQuery_in (sellerId : Z) (t : tables num) (s : sale num) :
  In s (salesQuery sellerId t) ->
  exists oi o p,
    In oi (order_items t) /\ In o (orders t) /\ In p (products t) /\
    o_id o = oi_order_id oi /\ p_id p = oi_product_id oi /\
    p_seller_id p = sellerId /\
    s_order_id s = o_id o /\ s_total_amount s = o_total_amount o /\
    s_price s = oi_price oi /\ s_quantity s = oi_quantity oi /\
    s_title s = p_title p.
Proof.
  unfold salesQuery. intros H.
  apply in_flat_map in H. destruct H as (oi & Hoi & H).
  apply in_flat_map in H. destruct H as (o & Ho & H).
  apply in_map_iff in H. destruct H as (p & <- & Hp).
  apply filter_In in Ho. destruct Ho as [Ho Io].
  apply filter_In in Hp. destruct Hp as [Hp Ip].
  apply andb_true_iff in Ip. destruct Ip as [Ip Is].
  apply Z.eqb_eq in Io, Ip, Is.
  exists oi, o, p. cbn. repeat split; assumption.
Qed.

(** The sales page is served to sellers and admins only, and shows the
    caller - an admin too - nothing but OrderLines of products the caller
    sells, with the price and quantity of the OrderLine. *)
Theorem sales_show_own_products
    (by_created_at : list (sale num) -> list (sale num)) (err : bool)
    (sellerId : Z) (role : string) (t : tables num) (page : sales_page num) :
  (forall l, Permutation (by_created_at l) l) ->
  get_sales by_created_at err sellerId role t = Served 200 page ->
  (role = "seller" \/ role = "admin") /\
  sp_totalSales page = List.length (sp_sales page) /\
  forall s, In s (sp_sales page) ->
    exists oi o p,
      In oi (order_items t) /\ In o (orders t) /\ In p (products t) /\
      o_id o = oi_order_id oi /\ p_id p = oi_product_id oi /\
      p_seller_id p = sellerId /\
      s_order_id s = o_id o /\ s_total_amount s = o_total_amount o /\
      s_price s = oi_price oi /\ s_quantity s = oi_quantity oi /\
      s_title s = p_title p.
Proof.
  intros Hp. unfold get_sales.
  destruct (role =? "seller")%string eqn:R1;
    destruct (role =? "admin")%string eqn:R2; cbn [negb andb];
    try discriminate;
    (destruct err; [discriminate|]); intros [= <-]; cbn;
    (split; [first [left; now apply String.eqb_eq
                   | right; now apply String.eqb_eq]|]);
    (split; [reflexivity|]);
    intros s H; apply (Permutation_in _ (Hp _)) in H;
    now apply salesQuery_in.
Qed.

End ViewProofs.

(** ** Pages and receipts *)

Section PageProofs.
Context {num : Type} {number : Number num}.


Lemma filter_map_comm (A : Type) (h : A -> bool) (g : A -> A) (l : list A) :
  filter h (map g l) = map g (filter (fun x => h (g x)) l).
Proof.
  induction l as [|a l IH]; [reflexivity|].
  cbn. destruct (h (g a)); cbn; now rewrite IH.
Qed.

Lemma Forall2_flat_map (A B : Type) (R : B -> B -> Prop)
    (f g : A -> list B) (l : list A) :
  (forall x, Forall2 R (f x) (g x)) ->
  Forall2 R (flat_map f l) (flat_map g l).
Proof.
  intros H. induction l as [|a l IH]; cbn; [constructor|].
  apply Forall2_app; [apply H | exact IH].
Qed.

(** The rows of the sales query do not depend on title, price or status
    of the products, but for their title. *)
Lemma sales_rewritten (sellerId productId : Z) (title : string)
    (price : num) (status : string) (t t' : tables num) :
  orders t' = orders t -> order_items t' = order_items t ->
  products t' =
    map (rewrite_product productId title price status) (products t) ->
  Forall2 same_sale (salesQuery sellerId t) (salesQuery sellerId t').
Proof.
  intros Eo Ei Ep. unfold salesQuery. rewrite Eo, Ei, Ep.
  apply Forall2_flat_map. intros oi.
  apply Forall2_flat_map. intros o.
  rewrite filter_map_comm.
  rewrite (filter_ext
             (fun x => (p_id (rewrite_product productId title price status x)
                        =? oi_product_id oi)
                       && (p_seller_id
                             (rewrite_product productId title price status x)
                           =? sellerId))
             (fun p => (p_id p =? oi_product_id oi)
                       && (p_seller_id p =? sellerId))).
  - induction (filter (fun p => (p_id p =? oi_product_id oi)
                                && (p_seller_id p =? sellerId))
                      (products t)) as [|p l IH]; cbn; constructor.
    + repeat split.
    + exact IH.
  - intros p. unfold rewrite_product.
    destruct (p_id p =? productId); reflexivity.
Qed.

Lemma same_sale_refl (l : list (sale num)) : Forall2 same_sale l l.
Proof. induction l; constructor; [repeat split | assumption]. Qed.

(** The revenue is computed from price and quantity of the rows, in
    their order. *)
Lemma totalRevenue_same (l l' : list (sale num)) :
  Forall2 same_sale l l' -> totalRevenue l' = totalRevenue l.
Proof.
  unfold totalRevenue. generalize (@nzero num number).
  intros acc H. revert acc.
  induction H as [|s s' l l' (_ & _ & Q & P) _ IH]; intros acc; cbn;
    [reflexivity|].
  rewrite Q, P. apply IH.
Qed.

(** Reported revenue is history: whatever a product update does - a new
    price, title or status, a refusal or a failure - the seller's sales
    page has the same rows as before up to the columns of the product,
    in the same order, and the same totalRevenue and totalSales. Money
    is any arithmetic here, that of JavaScript numbers included. *)
Theorem revenue_survives_product_update
    (by_created_at : list (sale num) -> list (sale num))
    (w : world num) (sellerId : Z) (role : string)
    (userId : Z) (role' : string) (productId : Z) (b : product_body num)
    (page page' : sales_page num) :
  sorts_by_order by_created_at ->
  get_sales by_created_at false sellerId role (db w) = Served 200 page ->
  get_sales by_created_at false sellerId role
    (db (snd (update_product userId role' productId b w)))
    = Served 200 page' ->
  sp_totalRevenue page' = sp_totalRevenue page /\
  sp_totalSales page' = sp_totalSales page /\
  Forall2 same_sale (sp_sales page) (sp_sales page').
Proof.
  intros Hs. unfold get_sales.
  destruct (negb (role =? "seller")%string && negb (role =? "admin")%string);
    [discriminate|].
  intros [= <-] [= <-]. cbn [sp_totalRevenue sp_totalSales sp_sales].
  assert (F : Forall2 same_sale
                (by_created_at (salesQuery sellerId (db w)))
                (by_created_at
                   (salesQuery sellerId
                      (db (snd (update_product userId role' productId b
                                  w)))))).
  { apply Hs.
    destruct (update_product_frame w userId role' productId b)
      as (_ & Eo & Ei & [Ep | Ep]).
    - unfold salesQuery. rewrite Eo, Ei, Ep. apply same_sale_refl.
    - exact (sales_rewritten sellerId productId _ _ _ _ _ Eo Ei Ep). }
  split; [|split].
  - now rewrite (totalRevenue_same _ _ F).
  - symmetry. exact (Forall2_length F).
  - exact F.
Qed.

End PageProofs.

(** ** The catalog routes *)

Section CatalogProofs.
Context {num : Type} {number : Number num}.

(** [PUT /:id] is for the seller of the product and for admins: for
    anybody else it changes no table and is never answered with 200; the
    answer is 403 when the lookup goes through. *)
Theorem update_product_owner_only (w : world num) (userId : Z)
    (role : string) (productId : Z) (b : product_body num)
    (p : product num) :
  productQuery productId (db w) = Some p ->
  p_seller_id p <> userId -> role <> "admin" ->
  db (snd (update_product userId role productId b w)) = db w /\
  status (fst (update_product userId role productId b w)) <> 200%nat /\
  (succeeds (SelProduct productId) w ->
   fst (update_product userId role productId b w) =
   {| status := 403; json := Error "You can only edit your own products" |}).
Proof.
  intros Hp Hs Hr.
  assert (G : negb (p_seller_id p =? userId) && negb (role =? "admin")%string
              = true).
  { apply andb_true_iff. split; apply negb_true_iff.
    - now apply Z.eqb_neq.
    - now apply String.eqb_neq. }
  unfold update_product, bind.
  destruct (query_cases _ (SelProduct productId) (productQuery productId) w)
    as [E | E]; rewrite E.
  - cbn. repeat split; try discriminate.
    intros S. rewrite query_ok in E by exact S. discriminate.
  - rewrite Hp, G. cbn. repeat split. discriminate.
Qed.

Lemma rewrite_product_ids (productId : Z) (title : string) (price : num)
    (status : string) (ps : list (product num)) :
  map (@p_id num) (map (rewrite_product productId title price status) ps)
    = map (@p_id num) ps /\
  map (@p_seller_id num)
      (map (rewrite_product productId title price status) ps)
    = map (@p_seller_id num) ps.
Proof.
  rewrite !map_map. split; apply map_ext; intros p; unfold rewrite_product;
    destruct (p_id p =? productId); reflexivity.
Qed.

(** [PUT /:id] never adds or drops a product and never changes an id or
    a seller; rows of other products stay as they are; and after a 200
    every row of the product carries the title, the price and the status
    ([status || 'available']) of the request. *)
Theorem update_product_keeps_identity (w : world num) (userId : Z)
    (role : string) (productId : Z) (b : product_body num) :
  let ps' := products (db (snd (update_product userId role productId b w))) in
  map (@p_id num) ps' = map (@p_id num) (products (db w)) /\
  map (@p_seller_id num) ps' = map (@p_seller_id num) (products (db w)) /\
  (forall p, In p (products (db w)) -> p_id p <> productId -> In p ps') /\
  (status (fst (update_product userId role productId b w)) = 200%nat ->
   forall p', In p' ps' -> p_id p' = productId ->
     p_title p' = title b /\ p_price p' = price b /\
     p_status p' = status_or_available (new_status b)).
Proof.
  cbn zeta. unfold update_product, bind.
  destruct (query_cases _ (SelProduct productId) (productQuery productId) w)
    as [E | E]; rewrite E;
    [cbn; repeat split; auto; discriminate|].
  destruct (productQuery productId (db w)) as [p0|];
    [|cbn; repeat split; auto; discriminate].
  destruct (negb (p_seller_id p0 =? userId) && negb (role =? "admin")%string);
    [cbn; repeat split; auto; discriminate|].
  match goal with
  | |- context [write ?s ?f ?w1] =>
      destruct (write_cases s f w1) as [E' | E']; rewrite E'
  end; cbn [fst snd db logged status products update_product_row];
    [repeat split; auto; discriminate|].
  destruct (rewrite_product_ids productId (title b) (price b)
              (status_or_available (new_status b)) (products (db w)))
    as [I1 I2].
  split; [exact I1|]. split; [exact I2|]. split.
  - intros p Hin Hn. apply in_map_iff. exists p. split; [|assumption].
    unfold rewrite_product.
    destruct (p_id p =? productId) eqn:I; [|reflexivity].
    apply Z.eqb_eq in I. contradiction.
  - intros _ p' Hin Hid.
    apply in_map_iff in Hin. destruct Hin as (p & <- & _).
    unfold rewrite_product in *.
    destruct (p_id p =? productId) eqn:I; [now repeat split|].
    apply Z.eqb_neq in I. contradiction.
Qed.

(** [DELETE /:id] removes a product only for its seller or an admin, and
    only while no cart line and no OrderLine references it; then the rows
    of that product are gone and nothing else; in every other case the
    tables stay as they are. *)
Theorem delete_product_guarded (err_select err_delete : bool)
    (userId : Z) (role : string) (productId : Z) (t : tables num) :
  snd (delete_product err_select err_delete userId role productId t) = t \/
  exists p,
    In p (products t) /\ p_id p = productId /\
    (p_seller_id p = userId \/ role = "admin") /\
    referenced productId t = false /\
    delete_product err_select err_delete userId role productId t =
    (Served 200 "Product deleted successfully",
     delete_product_row productId t).
Proof.
  unfold delete_product.
  destruct err_select; [now left|].
  destruct (productQuery productId t) as [p|] eqn:Q; [|now left].
  destruct (negb (p_seller_id p =? userId) && negb (role =? "admin")%string)
    eqn:G; [now left|].
  destruct err_delete; cbn [orb]; [now left|].
  destruct (referenced productId t) eqn:R; [now left|].
  right. exists p. apply find_in in Q. destruct Q as [Hin Hid].
  repeat split; try assumption.
  - now apply Z.eqb_eq.
  - apply andb_false_iff in G. destruct G as [G | G];
      apply negb_false_iff in G.
    + left. now apply Z.eqb_eq.
    + right. now apply String.eqb_eq.
Qed.

(** The routes keep the product ids of the catalog. *)
Lemma run_product_ids (o : op num) (w : world num) :
  map (@p_id num) (products (db (run o w))) =
  map (@p_id num) (products (db w)).
Proof.
  pose proof (cart_routes_frame o w) as F.
  destruct o; try (destruct F as (_ & F & _); now rewrite F).
  - cbn [run].
    destruct (checkout_run userId b now random w); try reflexivity.
    match goal with
    | |- context [finalized ?u ?i ?w1] =>
        destruct (finalized_frame u i w1) as (_ & _ & [P | P]); rewrite P
    end;
      match goal with
      | |- context [write_items ?o ?i ?w2] =>
          destruct (write_items_frame o i w2) as (P2 & _); rewrite P2
      end; cbn [db order_placed add_order products]; [reflexivity|].
    rewrite map_map. apply map_ext. intros p. unfold sell.
    now destruct (mem (p_id p) _).
  - cbn [run].
    destruct (update_product_frame w userId role productId b)
      as (_ & _ & _ & [P | P]); rewrite P; [reflexivity|].
    apply rewrite_product_ids.
Qed.

(** A new OrderLine references a product of the catalog. *)
Lemma run_new_lines (o : op num) (w : world num) (l : order_item num) :
  In l (order_items (db (run o w))) ->
  In l (order_items (db w)) \/
  exists p, In p (products (db w)) /\ p_id p = oi_product_id l.
Proof.
  intros H. pose proof (cart_routes_frame o w) as F.
  destruct o; try (destruct F as (_ & _ & _ & F); rewrite F in H; now left).
  - cbn [run] in H.
    destruct (checkout_run userId b now random w); try (now left).
    match type of H with
    | context [finalized ?u ?i ?w1] =>
        destruct (finalized_frame u i w1) as (_ & Hi & _); rewrite Hi in H
    end.
    apply write_items_new in H.
    destruct H as [H | (_ & item & Hin & Hp & _)]; [now left|].
    right. apply cartQuery_product in Hin.
    destruct Hin as (p & Hp1 & Hp2 & _). exists p. split; congruence.
  - cbn [run] in H.
    destruct (update_product_frame w userId role productId b)
      as (_ & _ & F' & _).
    rewrite F' in H. now left.
Qed.

Lemma in_ids (ps ps' : list (product num)) (x : Z) :
  map (@p_id num) ps' = map (@p_id num) ps ->
  (exists p, In p ps /\ p_id p = x) ->
  exists p', In p' ps' /\ p_id p' = x.
Proof.
  intros E (p & Hin & Hid).
  assert (H : In x (map (@p_id num) ps')).
  { rewrite E, <- Hid. now apply in_map. }
  apply in_map_iff in H. destruct H as (p' & H1 & H2). now exists p'.
Qed.

Lemma existsb_false (A : Type) (f : A -> bool) (l : list A) (x : A) :
  existsb f l = false -> In x l -> f x = false.
Proof.
  intros E Hin. destruct (f x) eqn:F; [|reflexivity].
  assert (existsb f l = true) by (apply existsb_exists; now exists x).
  congruence.
Qed.

Lemma cart_change_refs (u : Z) (t : tables num) (l : list cart_row)
    (s : Z) :
  (forall c, In c (cart t) ->
     exists p, In p (products t) /\ p_id p = c_product_id c) ->
  cart_change u t l s ->
  forall c, In c l -> exists p, In p (products t) /\ p_id p = c_product_id c.
Proof.
  intros R C c Hin. destruct C.
  - now apply R.
  - apply in_app_or in Hin. destruct Hin as [Hin | [<- | []]];
      [now apply R|].
    apply find_in in H. destruct H as [Hp Hid]. apply Z.eqb_eq in Hid.
    now exists p.
  - apply in_map_iff in Hin. destruct Hin as (c0 & <- & Hin).
    destruct (requantify_id (c_id line) q c0) as (_ & _ & ->). now apply R.
  - apply filter_In in Hin. now apply R.
  - apply filter_In in Hin. now apply R.
Qed.

Lemma serve_resolves (r : request num) (w : world num) :
  references_resolve (db w) -> references_resolve (db (serve r w)).
Proof.
  intros [Rc Rl]. destruct r as [o | e1 e2 u role pid].
  - cbn [serve]. pose proof (run_product_ids o w) as Ids. split.
    + intros c Hin. apply (in_ids (products (db w))); [assumption|].
      pose proof (serve_cart_change (Route o) w) as C.
      cbn [request_actor serve] in C.
      destruct (actor o) as [a|].
      * exact (cart_change_refs a (db w) _ _ Rc C c Hin).
      * destruct C as [C _]. rewrite C in Hin. now apply Rc.
    + intros l Hin. apply (in_ids (products (db w))); [assumption|].
      apply run_new_lines in Hin. destruct Hin as [Hin | Hin];
        [now apply Rl | assumption].
  - cbn [serve db].
    destruct (delete_product_frame e1 e2 u role pid (db w))
      as (C & _ & _ & I & [P | [Ref P]]); unfold references_resolve;
      rewrite C, I, P; [now split|].
    unfold referenced in Ref. apply orb_false_iff in Ref.
    destruct Ref as [Ref1 Ref2]. split.
    + intros c Hin. destruct (Rc c Hin) as (p & Hp & Hid).
      exists p. split; [|assumption]. apply filter_In. split; [assumption|].
      apply negb_true_iff. rewrite Hid.
      apply (existsb_false _ _ _ c Ref1 Hin).
    + intros l Hin. destruct (Rl l Hin) as (p & Hp & Hid).
      exists p. split; [|assumption]. apply filter_In. split; [assumption|].
      apply negb_true_iff. rewrite Hid.
      apply (existsb_false _ _ _ l Ref2 Hin).
Qed.

(** Referential integrity is kept: if every cart line and every
    OrderLine references a product of the catalog, it still does after
    any sequence of cart requests, checkouts, product updates and product
    deletions, whatever fails in them. *)
Theorem references_stay_resolved (rs : list (request num)) :
  forall w : world num,
    references_resolve (db w) ->
    references_resolve (db (serve_all rs w)).
Proof.
  induction rs as [|r rs IH]; intros w H; [exact H|].
  cbn [serve_all fold_left]. apply IH. now apply serve_resolves.
Qed.

End CatalogProofs.

(** ** The token of a request *)

Lemma split_spaceless (s : string) :
  spaceless s = true -> split_space s = [s].
Proof.
  induction s as [|c s IH]; [reflexivity|].
  unfold spaceless. cbn. intros H. apply andb_true_iff in H.
  destruct H as [Hc Hs]. apply negb_true_iff in Hc.
  rewrite Hc, (IH Hs). reflexivity.
Qed.

Lemma split_at_space (a b : string) :
  spaceless a = true ->
  split_space (String.append a (String " " b)) = a :: split_space b.
Proof.
  induction a as [|c a IH]; [reflexivity|].
  unfold spaceless. cbn. intros H. apply andb_true_iff in H.
  destruct H as [Hc Ha]. apply negb_true_iff in Hc.
  rewrite Hc, (IH Ha). reflexivity.
Qed.

Lemma append_space_nonempty (a b : string) :
  (String.append a (String " " b) =? "")%string = false.
Proof. now destruct a. Qed.

(** The client's header round-trips: for a header made of a word, one
    space and a non-empty token without spaces - [Bearer <token>] as
    [Utils.makeRequest] sends it, but any word will do, the scheme is
    not looked at - [authenticateToken] hands exactly the token to
    [jwt.verify]; it calls [next()] with the verified payload, or answers
    403. *)
Theorem bearer_round_trip (verify : string -> option payload)
    (scheme token : string) :
  spaceless scheme = true -> spaceless token = true -> token <> "" ->
  authenticateToken verify (Some (String.append scheme (String " " token))) =
  match verify token with
  | Some user => Next user
  | None => Reject 403 "Invalid or expired token"
  end.
Proof.
  intros Hs Ht Hn. unfold authenticateToken, token_of.
  rewrite append_space_nonempty, (split_at_space _ _ Hs),
    (split_spaceless _ Ht).
  cbn [nth_error falsy str].
  assert (E : (token =? "")%string = false) by now apply String.eqb_neq.
  now rewrite E.
Qed.

(** Without a token there is no verification: a request with no
    Authorization header, with a header of one word, or with nothing
    between the first space and the next is answered with 401, whatever
    [jwt.verify] would say. *)
Theorem header_without_token (verify : string -> option payload) :
  authenticateToken verify None = Reject 401 "Access token required" /\
  (forall h, spaceless h = true ->
     authenticateToken verify (Some h) = Reject 401 "Access token required") /\
  (forall scheme rest, spaceless scheme = true ->
     authenticateToken verify (Some (String.append scheme (String " " "")))
       = Reject 401 "Access token required" /\
     authenticateToken verify
       (Some (String.append scheme (String " " (String " " rest))))
       = Reject 401 "Access token required").
Proof.
  split; [reflexivity|]. split.
  - intros h Hh. unfold authenticateToken, token_of.
    destruct (h =? "")%string; [reflexivity|].
    now rewrite (split_spaceless _ Hh).
  - intros scheme rest Hs. unfold authenticateToken, token_of.
    rewrite !append_space_nonempty, !(split_at_space _ _ Hs). now split.
Qed.

(** ** The other routes on the sample data *)

Lemma newest_first_permutes (A : Type) (l : list A) :
  Permutation (newest_first l) l.
Proof. symmetry. apply Permutation_rev. Qed.

Lemma shop_ids_fresh : cart_ids_fresh shop.
Proof.
  split.
  - cbn. repeat constructor; cbn; intuition discriminate.
  - intros c [<- | [<- | []]]; cbn; lia.
Qed.

Lemma add_item_guarded_witness :
  exists p, In p (products quiet_shop) /\ p_id p = 1 /\
            p_status p = "available" /\ p_seller_id p <> 3.
Proof.
  destruct (add_item_guarded (start quiet_shop reliable) 3 (Some 1) None)
    as (pid & p & E & H).
  - vm_compute. discriminate.
  - injection E as <-. now exists p.
Defined.

Lemma add_item_found_again_witness :
  exists line,
    existingQuery 3 1
      (db (snd (add_item 3 (Some 1) (Some 2) (start shop reliable))))
      = Some line /\
    c_user_id line = 3 /\ c_product_id line = 1 /\
    status (fst (add_item 3 (Some 1) (Some 2) (start shop reliable)))
      = 200%nat /\
    c_id line = 1.
Proof.
  apply (add_item_found_again (start shop reliable) 3 1 (Some 2)).
  left. reflexivity.
Defined.

Lemma add_then_remove_witness :
  status (fst (remove_item 3 2
                 (snd (add_item 3 (Some 6) None
                         (start shop_with_camera reliable))))) = 200%nat /\
  cart (db (snd (remove_item 3 2
                   (snd (add_item 3 (Some 6) None
                           (start shop_with_camera reliable))))))
    = cart shop_with_camera.
Proof.
  apply (add_then_remove (start shop_with_camera reliable) 3 (Some 6) None).
  - split.
    + cbn. repeat constructor; cbn; intuition discriminate.
    + intros c [<- | []]; cbn; lia.
  - reflexivity.
  - reflexivity.
  - reflexivity.
Defined.

Lemma cart_lines_stay_unique_witness :
  one_line_per_product
    (db (serve_all [Route (Add 3 (Some 1) (Some 4)); Route (Add 4 (Some 1) None);
                    DeleteProduct false false 2 "seller" 2]
           (start shop reliable))).
Proof.
  apply cart_lines_stay_unique.
  unfold one_line_per_product. cbn.
  repeat constructor; cbn; intuition discriminate.
Defined.

Lemma other_carts_untouched_witness :
  lines_of_user 3
    (db (serve_all [Route (Add 4 (Some 1) None);
                    Route (UpdateQuantity 4 1 (Some 9));
                    Route (Remove 4 2); Route (Clear 4);
                    Route (Checkout 4 mike 1700000360000%N one_half)]
           (start shop reliable)))
  = lines_of_user 3 shop.
Proof.
  apply (other_carts_untouched 3 _ (start shop reliable)).
  - exact shop_ids_fresh.
  - repeat constructor; discriminate.
Defined.

Lemma cart_badge_counts_stale_lines_witness :
  exists page,
    get_cart newest_first false 3 shop_chair_gone = Served 200 page /\
    cp_itemCount page = 1%nat /\
    get_cart_count false 3 shop_chair_gone = Served 200 2%nat.
Proof.
  destruct (cart_badge_counts_stale_lines newest_first 3 shop_chair_gone)
    as (page & E & C & B & _).
  - intros l. apply newest_first_permutes.
  - vm_compute. repeat constructor; cbn; intuition discriminate.
  - exists page. split; [exact E|]. split; [|exact B].
    rewrite C. reflexivity.
Defined.

Lemma history_lists_own_orders_witness :
  exists rows,
    get_history newest_first false 3 (db after_sale) = Served 200 rows /\
    List.length rows = 1%nat.
Proof.
  destruct (history_lists_own_orders newest_first 3 (db after_sale))
    as (rows & E & _ & L & _).
  - intros l. apply newest_first_permutes.
  - exists rows. split; [exact E|]. rewrite L. reflexivity.
Defined.

Lemma sales_show_own_products_witness :
  exists page,
    get_sales newest_first false 2 "seller" (db after_sale) = Served 200 page /\
    sp_totalSales page = List.length (sp_sales page).
Proof.
  eexists. split; [reflexivity|].
  eapply (proj1 (proj2 (sales_show_own_products newest_first false 2 "seller"
                          (db after_sale) _ _ eq_refl))).
  Unshelve. intros l. apply newest_first_permutes.
Defined.


Lemma revenue_survives_product_update_witness :
  exists page page',
    get_sales newest_first false 2 "seller" (db after_sale)
      = Served 200 page /\
    get_sales newest_first false 2 "seller"
      (db (snd (update_product 2 "seller" 1
                  {| title := "Jacket"; price := 100;
                     new_status := Some "sold" |} after_sale)))
      = Served 200 page' /\
    sp_totalRevenue page = 8999 /\
    sp_totalRevenue page' = sp_totalRevenue page.
Proof.
  eexists. eexists. split; [reflexivity|]. split; [reflexivity|].
  split; [reflexivity|].
  eapply (proj1 (revenue_survives_product_update newest_first after_sale
                   2 "seller" 2 "seller" 1 _ _ _ _ eq_refl eq_refl)).
  Unshelve. intros l l' F. unfold newest_first.
  induction F as [|x y l l' R _ IH]; cbn; [constructor|].
  apply Forall2_app; [exact IH | constructor; [exact R | constructor]].
Defined.

Lemma update_product_owner_only_witness :
  db (snd (update_product 3 "user" 1
             {| title := "Mine now"; price := 1; new_status := None |}
             (start shop reliable))) = shop /\
  fst (update_product 3 "user" 1
         {| title := "Mine now"; price := 1; new_status := None |}
         (start shop reliable)) =
  {| status := 403; json := Error "You can only edit your own products" |}.
Proof.
  destruct (update_product_owner_only (start shop reliable) 3 "user" 1
              {| title := "Mine now"; price := 1; new_status := None |}
              jacket) as (A & _ & B).
  - reflexivity.
  - cbn. discriminate.
  - discriminate.
  - split; [exact A|]. apply B. reflexivity.
Defined.

Lemma update_product_keeps_identity_witness :
  Forall (fun p' => p_id p' = 1 ->
            p_title p' = "Jacket" /\ p_price p' = 100 /\ p_status p' = "sold")
    (products (db (snd (update_product 2 "seller" 1
                          {| title := "Jacket"; price := 100;
                             new_status := Some "sold" |}
                          (start shop reliable))))).
Proof.
  apply Forall_forall.
  apply (proj2 (proj2 (proj2 (update_product_keeps_identity
                                (start shop reliable) 2 "seller" 1
                                {| title := "Jacket"; price := 100;
                                   new_status := Some "sold" |})))).
  reflexivity.
Defined.

Lemma references_stay_resolved_witness :
  references_resolve
    (db (serve_all [DeleteProduct false false 2 "seller" 1;
                    DeleteProduct false false 2 "seller" 6;
                    Route (Checkout 3 jane 1700000000000%N one_half)]
           (start shop_with_camera reliable))).
Proof.
  apply references_stay_resolved. split.
  - intros c [<- | []]. exists jacket. split; [now left | reflexivity].
  - intros l [].
Defined.

Lemma bearer_round_trip_witness :
  authenticateToken only_user1 (Some (authorization_header "user1.token"))
    = Next user1 /\
  authenticateToken only_user1 (Some "Basic user1.token") = Next user1 /\
  authenticateToken only_user1 (Some (authorization_header "forged"))
    = Reject 403 "Invalid or expired token".
Proof.
  split; [|split].
  - apply (bearer_round_trip only_user1 "Bearer" "user1.token");
      [reflexivity | reflexivity | discriminate].
  - apply (bearer_round_trip only_user1 "Basic" "user1.token");
      [reflexivity | reflexivity | discriminate].
  - apply (bearer_round_trip only_user1 "Bearer" "forged");
      [reflexivity | reflexivity | discriminate].
Defined.

Lemma header_without_token_witness :
  authenticateToken only_user1 (Some "user1.token")
    = Reject 401 "Access token required" /\
  authenticateToken only_user1 (Some "Bearer  user1.token")
    = Reject 401 "Access token required".
Proof.
  split.
  - apply (proj1 (proj2 (header_without_token only_user1))). reflexivity.
  - apply (proj2 (proj2 (header_without_token only_user1)) "Bearer"
             "user1.token").
    reflexivity.
Defined.

(** ** Checking out twice *)

Section Resubmission.
Context {num : Type} {number : Number num}.

Lemma cartQuery_nil (t : tables num) (userId : Z) :
  (forall c, In c (cart t) -> c_user_id c = userId ->
             is_available t (c_product_id c) = false) ->
  cartQuery t userId = [].
Proof.
  intros H. unfold cartQuery.
  induction (cart t) as [|c l IH]; [reflexivity|].
  cbn [filter]. destruct (c_user_id c =? userId) eqn:U.
  - cbn [flat_map]. rewrite IH by (intros c' Hc'; apply H; now right).
    rewrite app_nil_r. unfold join_cart.
    apply Z.eqb_eq in U. specialize (H c (or_introl eq_refl) U).
    rewrite (filter_ext_in _ (fun _ => false)); [now rewrite filter_false|].
    intros p Hp. exact (existsb_false _ _ _ p H Hp).
  - apply IH. intros c' Hc'. apply H. now right.
Qed.

Lemma cartQuery_covers (t : tables num) (userId : Z) (c : cart_row) :
  In c (cart t) -> c_user_id c = userId ->
  is_available t (c_product_id c) = true ->
  In (c_product_id c) (map (@ci_product_id num) (cartQuery t userId)).
Proof.
  intros Hc Hu Ha. apply has_status_iff in Ha.
  destruct Ha as (p & Hp & Hid & Hst).
  apply in_map_iff.
  exists {| ci_id := c_id c; ci_user_id := c_user_id c;
            ci_product_id := c_product_id c; ci_quantity := c_quantity c;
            ci_title := p_title p; ci_price := p_price p;
            ci_seller_id := p_seller_id p |}.
  split; [reflexivity|]. unfold cartQuery. apply in_flat_map.
  exists c. split.
  - apply filter_In. split; [assumption | now apply Z.eqb_eq].
  - unfold join_cart. apply in_map_iff. exists p. split; [reflexivity|].
    apply filter_In. split; [assumption|].
    apply andb_true_iff. split; [now apply Z.eqb_eq|].
    unfold available. now apply String.eqb_eq.
Qed.

(** A checkout cannot be submitted twice: once a checkout was answered
    with 201 and its sold update went through, the same user's next
    checkout - with nothing in between, complete fields and a cart read
    that does not fail - is answered "Cart is empty" and changes no
    table, even when the cart could not be cleared. *)
Theorem checkout_not_repeated (w : world num) (userId : Z)
    (b b2 : checkout_body) (now now2 : N) (random random2 : list nat) :
  sold_update_reliable (fault w) ->
  (exists r, fst (checkout userId b now random w) = Some r /\
             status r = 201%nat) ->
  complete b2 = true ->
  succeeds (SelCartAvailable userId) (snd (checkout userId b now random w)) ->
  fst (checkout userId b2 now2 random2
         (snd (checkout userId b now random w))) = Some empty_cart /\
  db (snd (checkout userId b2 now2 random2
             (snd (checkout userId b now random w))))
  = db (snd (checkout userId b now random w)).
Proof.
  intros R (r & E & S) C2 S2.
  assert (Q : cartQuery (db (snd (checkout userId b now random w))) userId
              = []).
  { destruct (checkout_run userId b now random w);
      try (injection E as <-; discriminate).
    set (items := cartQuery (db w) userId) in *.
    set (oid := seq_orders (db w) + 1) in *.
    set (w2 := order_placed userId b (orderNumber now random) items w) in *.
    destruct (write_items_frame oid items w2) as (P2 & C2' & _).
    assert (P : products (db (finalized userId items
                                (write_items oid items w2))) =
                map (sell (map (@ci_product_id num) items)) (products (db w))).
    { rewrite finalized_sold; [now rewrite P2|].
      now rewrite write_items_fault. }
    apply cartQuery_nil. intros c Hc Hu.
    assert (Hc0 : In c (cart (db w))).
    { destruct (finalized_cart userId items (write_items oid items w2))
        as (_ & [F | F]); rewrite F, C2' in Hc; [exact Hc|].
      now apply filter_In in Hc. }
    destruct (is_available (db (finalized userId items
                (write_items oid items w2))) (c_product_id c)) eqn:A;
      [|reflexivity].
    apply (available_after_sell _ (db w) _ _ P) in A.
    destruct A as [A M].
    pose proof (cartQuery_covers (db w) userId c Hc0 Hu A) as I.
    apply mem_iff in I. fold items in I. congruence. }
  destruct (checkout_run userId b2 now2 random2
              (snd (checkout userId b now random w))).
  - congruence.
  - unfold succeeds in S2. congruence.
  - now split.
  - congruence.
  - congruence.
Qed.

End Resubmission.

Lemma checkout_not_repeated_witness :
  fst (checkout 3 jane 1700000009999%N one_half
         (snd (checkout 3 jane 1700000000000%N [1; 2; 3; 4; 5; 6]%nat
                 (start shop reliable)))) = Some empty_cart.
Proof.
  apply (checkout_not_repeated (start shop reliable) 3 jane jane).
  - intros k ids. reflexivity.
  - eexists. split; reflexivity.
  - reflexivity.
  - reflexivity.
Defined.

Lemma checkout_total_of_lines_witness :
  23999 =
  toFixed2
    (lines_total
       (lines_of
          (db (snd (checkout 3 jane 1700000000000%N [1; 2; 3; 4; 5; 6]%nat
                      (start shop reliable)))) 1)).
Proof.
  apply (checkout_total_of_lines (start shop reliable) 3 jane
           1700000000000%N [1; 2; 3; 4; 5; 6]%nat
           (fun k o p q => eq_refl) eq_refl
           "Order placed successfully" 1 "ECO-1700000000000-12345" 23999
           "Jane Doe" "789 User Blvd" 2).
  reflexivity.
Defined.

Lemma suffix_of_five_digits_witness :
  five_upper_alnum (suffix [10; 35; 0; 9; 20; 7]%nat) /\
  suffix [10; 35; 0; 9; 20; 7]%nat = "AZ09K".
Proof.
  split; [|reflexivity].
  apply suffix_of_five_digits.
  - cbn. lia.
  - repeat constructor.
Defined.
